(** * QTodoTxt2: the main controller ([qtodotxt/controllers/main_controller.py])

    A shallow embedding of [MainController] and a verification of what its
    specification says about filtering, visibility flags, the recent-files
    list, deletion, and saving.

    The controller is a Python object mutated in place by its methods; here
    each method is a computation in a small state-and-exception monad over a
    record holding the object's attributes.  Python exceptions keep the
    mutations made before the raise, so both outcomes carry a state. *)

From Stdlib Require Import ZArith List Bool Ascii String Lia.
From stdpp Require Import base gmap strings list.
Import ListNotations.
Local Open Scope string_scope.
Local Open Scope Z_scope.

(** ** Python values and built-ins used by the controller *)

Module Py.

(** Exception classes the controller can meet.  [OSError] stands for the
    class and its subclasses; every class here derives from [Exception]. *)
Inductive ExnClass :=
| OSError | TypeError | ValueError | IndexError | AttributeError | RuntimeError.

Record Exn := mkExn { exn_class : ExnClass; exn_msg : string }.

#[global] Instance ExnClass_eq_dec : EqDecision ExnClass.
Proof. solve_decision. Defined.

(** [isinstance(ex, OSError)] *)
Definition is_OSError (e : Exn) : bool :=
  match exn_class e with OSError => true | _ => false end.

(** [str(ex)] *)
Definition str_of_exn (e : Exn) : string := exn_msg e.

(** What [QSettings.value] can hand back: the stored value, or the default
    given by the caller. A stored str is one of code points below 256. *)
Inductive Value :=
| VNone
| VBool (b : bool)
| VInt (z : Z)
| VStr (s : string)
| VList (l : list string).

#[global] Instance Value_eq_dec : EqDecision Value.
Proof. solve_decision. Defined.

(** Truth value of an object, as [if x:] and [not x] use it. *)
Definition truthy (v : Value) : bool :=
  match v with
  | VNone => false
  | VBool b => b
  | VInt z => negb (z =? 0)
  | VStr s => negb (String.eqb s "")
  | VList l => match l with [] => false | _ => true end
  end.

(** A [string] stands for a str whose code points are all below 256, one
    character per code point. The white space of such a str, as [int] and
    [strip] see it: U+0009 to U+000D, U+001C to U+001F, the space, U+0085 and
    U+00A0. Its only decimal digits are "0" to "9". *)
Definition is_space (c : ascii) : bool :=
  let n := nat_of_ascii c in
  ((9 <=? n) && (n <=? 13) || (28 <=? n) && (n <=? 31) || (n =? 32)
   || (n =? 133) || (n =? 160))%nat.

Definition digit_of (c : ascii) : option Z :=
  let n := nat_of_ascii c in
  if ((48 <=? n) && (n <=? 57))%nat then Some (Z.of_nat n - 48) else None.

Fixpoint lstrip (s : string) : string :=
  match s with
  | String c r => if is_space c then lstrip r else s
  | EmptyString => EmptyString
  end.

Fixpoint rev_string (s acc : string) : string :=
  match s with
  | String c r => rev_string r (String c acc)
  | EmptyString => acc
  end.

(** [s.strip()] *)
Definition strip (s : string) : string :=
  rev_string (lstrip (rev_string (lstrip s) "")) "".

(** Digits of an integer literal; a single underscore may separate two
    digits. [after_digit] tells whether the previous character was one. *)
Fixpoint parse_digits (s : string) (acc : Z) (after_digit : bool) : option Z :=
  match s with
  | EmptyString => if after_digit then Some acc else None
  | String c r =>
      match digit_of c with
      | Some d => parse_digits r (10 * acc + d) true
      | None =>
          if (Ascii.eqb c "_" && after_digit)%bool
          then parse_digits r acc false
          else None
      end
  end.

(** [int(s)] for a string, base ten. *)
Definition int_of_str (s : string) : option Z :=
  match strip s with
  | String "-" r => option_map Z.opp (parse_digits r 0 false)
  | String "+" r => parse_digits r 0 false
  | r => parse_digits r 0 false
  end.

(** [int(v)]: the integer or the exception raised. *)
Definition int (v : Value) : Exn + Z :=
  match v with
  | VInt z => inr z
  | VBool b => inr (if b then 1 else 0)
  | VStr s =>
      match int_of_str s with
      | Some z => inr z
      | None => inl (mkExn ValueError "invalid literal for int() with base 10")
      end
  | VNone | VList _ =>
      inl (mkExn TypeError "int() argument must be a string, a bytes-like object or a real number")
  end.

(** Whether a value, when it is a str, is made of ASCII characters only. On
    such values [int] above is the built-in however characters beyond ASCII
    are read. *)
Fixpoint is_ascii (s : string) : bool :=
  match s with
  | String c r => (nat_of_ascii c <? 128)%nat && is_ascii r
  | EmptyString => true
  end.

Definition plain (v : Value) : bool :=
  match v with
  | VStr s => is_ascii s
  | _ => true
  end.

Section Lists.
Context {A : Type} `{EqDecision A}.

(** [l[i]]: negative indices count from the end; [None] is IndexError. *)
Definition getitem (l : list A) (i : Z) : option A :=
  let n := Z.of_nat (length l) in
  if (0 <=? i) && (i <? n) then l !! Z.to_nat i
  else if (- n <=? i) && (i <? 0) then l !! Z.to_nat (n + i)
  else None.

(** Position at which a slice bound or an insertion index lands. *)
Definition clamp_index (l : list A) (i : Z) : nat :=
  let n := Z.of_nat (length l) in
  Z.to_nat (Z.min n (if i <? 0 then Z.max 0 (n + i) else i)).

(** [l.insert(i, x)] *)
Definition insert (l : list A) (i : Z) (x : A) : list A :=
  let k := clamp_index l i in take k l ++ x :: drop k l.

(** [l[:i]] *)
Definition slice_to (l : list A) (i : Z) : list A :=
  take (clamp_index l i) l.

(** [x in l] *)
Definition contains (x : A) (l : list A) : bool :=
  existsb (fun y => bool_decide (y = x)) l.


(** [l.remove(x)]: drops the first element equal to [x]; [None] is
    ValueError. *)
Fixpoint remove (x : A) (l : list A) : option (list A) :=
  match l with
  | [] => None
  | y :: r => if bool_decide (y = x) then Some r
              else option_map (cons y) (remove x r)
  end.
End Lists.

(** [s.lower()] on ASCII text. *)
Definition lower_ascii (c : ascii) : ascii :=
  let n := nat_of_ascii c in
  if ((65 <=? n) && (n <=? 90))%nat then ascii_of_nat (n + 32) else c.

Fixpoint lower (s : string) : string :=
  match s with
  | String c r => String (lower_ascii c) (lower r)
  | EmptyString => EmptyString
  end.

(** [sub in s] for strings. *)
Definition str_contains (sub s : string) : bool :=
  match String.index 0 sub s with Some _ => true | None => false end.

(** [s.startswith(p)] *)
Definition startswith (s p : string) : bool := String.prefix p s.

(** [s[n:]] *)
Fixpoint str_drop (n : nat) (s : string) : string :=
  match n, s with
  | S k, String _ r => str_drop k r
  | _, _ => s
  end.

(** [os.path.basename(p)]: what follows the last slash. *)
Fixpoint basename_aux (s cur : string) : string :=
  match s with
  | String c r =>
      if Ascii.eqb c "/" then basename_aux r "" else basename_aux r (cur ++ String c "")
  | EmptyString => cur
  end.
Definition basename (p : string) : string := basename_aux p "".

(** [string.ascii_uppercase] *)
Definition ascii_uppercase : string := "ABCDEFGHIJKLMNOPQRSTUVWXYZ".

(** The characters of a string, one string each (iteration over a str). *)
Fixpoint chars (s : string) : list string :=
  match s with
  | String c r => String c "" :: chars r
  | EmptyString => []
  end.

Definition newline : string := String (ascii_of_nat 10) "".

End Py.

(** ** Tasks and filters ([qtodotxt.lib.tasklib], [qtodotxt.lib.filters]) *)

(** A calendar date, as its day number. *)
Definition Date := Z.

(** Modelled from the spec: the attributes a task derives from its text
    (section 3, "Task"); the class [tasklib.Task] is defined outside the
    controller's module. *)
Record Parsed := mkParsed {
  p_priority : option ascii;
  p_contexts : list string;
  p_projects : list string;
  p_dueDate : option Date;
  p_is_complete : bool;
  p_completionDate : option Date;
  p_creationDate : option Date
}.

(** Modelled from the spec: a task is its raw line and the attributes parsed
    from it. Duplicate lines are distinct Task instances, so every task also
    carries the identity of its object, [oid]; two tasks are equal when they
    are the same object in the same condition. A list of tasks holds the
    current condition of its objects. *)
Record Task := mkTask {
  oid : nat;
  text : string;
  parsed : Parsed
}.

#[global] Instance Parsed_eq_dec : EqDecision Parsed.
Proof. solve_decision. Defined.
#[global] Instance Task_eq_dec : EqDecision Task.
Proof. solve_decision. Defined.

Definition is_complete (t : Task) : bool := p_is_complete (parsed t).
Definition dueDate (t : Task) : option Date := p_dueDate (parsed t).

(** The filter classes the controller imports. *)
Inductive Filter :=
| SimpleTextFilter (txt : string)
| FutureFilter
| IncompleteTasksFilter
| CompleteTasksFilter.

#[global] Instance Filter_eq_dec : EqDecision Filter.
Proof. solve_decision. Defined.

(** The deletion slot takes a QVariant: a Task, or else a position. *)
Inductive TaskRef :=
| ByTask (t : Task)
| ByIndex (i : Z).

(** ** Collaborators

    What the controller calls but does not define: the task parser, the
    clock, the file on disk, the filters tree.  They are parameters of the
    development; every theorem holds whatever they do. *)
Record Collaborators := mkCollaborators {
  (** [tasklib.Task(text)]: the attributes parsed from a line *)
  parse : string -> Parsed;
  (** today's date *)
  today : Date;
  (** [File.load(filename)]: the non-blank lines read, or the exception *)
  file_load : string -> Py.Exn + list string;
  (** [File.save(filename)] over the given tasks: [Some e] when it raises *)
  file_save : string -> list Task -> option Py.Exn;
  (** [File.saveDoneTask(task)]: [Some e] when it raises *)
  file_saveDoneTask : Task -> option Py.Exn;
  (** [File.getAllContexts(True)], [File.getAllProjects(True)]: the names *)
  getAllContexts : list Task -> list string;
  getAllProjects : list Task -> list string;
  (** [model.itemFromIndex(idx).filter] of the filters tree *)
  item_filter : Z -> Filter
}.

(** ** Controller state *)

(** The [File] object: the open file's name ('' for none) and the store. *)
Record File := mkFile {
  filename : string;
  tasks : list Task
}.

(** Signals emitted to the UI, in order of emission. *)
Inductive Signal :=
| error (msg : string)
| fileExternallyModified
| completionChanged
| filteredTasksChanged
| showFutureChanged (val : bool)
| searchTextChanged (txt : string)
| showCompletedChanged (val : bool)
| filtersChanged
| modifiedChanged (val : bool)
| titleChanged (title : string)
| recentFilesChanged.

(** An object handed to [showError]: a message, or an exception instance. *)
Inductive Obj :=
| OStr (s : string)
| OExn (e : Py.Exn).

Record MainController := mkMainController {
  _args_file : option string;            (* self._args.file *)
  _filteredTasks : list Task;
  _settings : gmap string Py.Value;      (* the persisted QSettings *)
  _showCompleted : Py.Value;
  _showFuture : Py.Value;
  _file : File;
  _modified : bool;
  _shownFilters : option (File * Py.Value);  (* last showFilters(file, flag) *)
  _title : string;
  _recentFiles : Py.Value;
  _searchText : string;
  _currentFilters : list Filter;
  _completionStrings : list string;
  emitted : list Signal;                 (* signals sent so far, oldest first *)
  next_oid : nat                         (* identity of the next Task object *)
}.

(** ** The monad of methods *)

Inductive Outcome (A : Type) :=
| Return (a : A) (st : MainController)
| Raise (e : Py.Exn) (st : MainController).
Arguments Return {A} a st.
Arguments Raise {A} e st.

Definition M (A : Type) := MainController -> Outcome A.

Definition ret {A} (a : A) : M A := fun st => Return a st.
Definition raise {A} (e : Py.Exn) : M A := fun st => Raise e st.
Definition bind {A B} (m : M A) (k : A -> M B) : M B :=
  fun st => match m st with
            | Return a st' => k a st'
            | Raise e st' => Raise e st'
            end.
Definition get : M MainController := fun st => Return st st.
Definition modify (f : MainController -> MainController) : M unit :=
  fun st => Return tt (f st).

(** [try: body  except <class> as ex: handler(ex)]; an exception the clause
    does not match goes on. *)
Definition try_except {A} (body : M A) (catches : Py.Exn -> bool)
    (handler : Py.Exn -> M A) : M A :=
  fun st => match body st with
            | Return a st' => Return a st'
            | Raise e st' => if catches e then handler e st' else Raise e st'
            end.

(** Lifts a built-in that returns or raises. *)
Definition lift {A} (r : Py.Exn + A) : M A :=
  match r with inl e => raise e | inr a => ret a end.

Declare Scope py_scope.
Delimit Scope py_scope with py.
Notation "x <- m ;; k" := (bind m (fun x => k))
  (at level 100, m at next level, right associativity) : py_scope.
Notation "m ;; k" := (bind m (fun _ => k))
  (at level 100, right associativity) : py_scope.
Local Open Scope py_scope.

(** The state an outcome ends in, and whether it returned. *)
Definition final {A} (o : Outcome A) : MainController :=
  match o with Return _ st => st | Raise _ st => st end.
Definition returned {A} (o : Outcome A) : bool :=
  match o with Return _ _ => true | Raise _ _ => false end.

(** Field updates (assignments to one attribute). *)
Definition upd_filteredTasks v st := mkMainController
  (_args_file st) v (_settings st) (_showCompleted st) (_showFuture st) (_file st)
  (_modified st) (_shownFilters st) (_title st) (_recentFiles st) (_searchText st)
  (_currentFilters st) (_completionStrings st) (emitted st) (next_oid st).
Definition upd_settings v st := mkMainController
  (_args_file st) (_filteredTasks st) v (_showCompleted st) (_showFuture st) (_file st)
  (_modified st) (_shownFilters st) (_title st) (_recentFiles st) (_searchText st)
  (_currentFilters st) (_completionStrings st) (emitted st) (next_oid st).
Definition upd_showCompleted v st := mkMainController
  (_args_file st) (_filteredTasks st) (_settings st) v (_showFuture st) (_file st)
  (_modified st) (_shownFilters st) (_title st) (_recentFiles st) (_searchText st)
  (_currentFilters st) (_completionStrings st) (emitted st) (next_oid st).
Definition upd_showFuture v st := mkMainController
  (_args_file st) (_filteredTasks st) (_settings st) (_showCompleted st) v (_file st)
  (_modified st) (_shownFilters st) (_title st) (_recentFiles st) (_searchText st)
  (_currentFilters st) (_completionStrings st) (emitted st) (next_oid st).
Definition upd_file v st := mkMainController
  (_args_file st) (_filteredTasks st) (_settings st) (_showCompleted st) (_showFuture st) v
  (_modified st) (_shownFilters st) (_title st) (_recentFiles st) (_searchText st)
  (_currentFilters st) (_completionStrings st) (emitted st) (next_oid st).
Definition upd_modified v st := mkMainController
  (_args_file st) (_filteredTasks st) (_settings st) (_showCompleted st) (_showFuture st) (_file st)
  v (_shownFilters st) (_title st) (_recentFiles st) (_searchText st)
  (_currentFilters st) (_completionStrings st) (emitted st) (next_oid st).
Definition upd_shownFilters v st := mkMainController
  (_args_file st) (_filteredTasks st) (_settings st) (_showCompleted st) (_showFuture st) (_file st)
  (_modified st) v (_title st) (_recentFiles st) (_searchText st)
  (_currentFilters st) (_completionStrings st) (emitted st) (next_oid st).
Definition upd_title v st := mkMainController
  (_args_file st) (_filteredTasks st) (_settings st) (_showCompleted st) (_showFuture st) (_file st)
  (_modified st) (_shownFilters st) v (_recentFiles st) (_searchText st)
  (_currentFilters st) (_completionStrings st) (emitted st) (next_oid st).
Definition upd_recentFiles v st := mkMainController
  (_args_file st) (_filteredTasks st) (_settings st) (_showCompleted st) (_showFuture st) (_file st)
  (_modified st) (_shownFilters st) (_title st) v (_searchText st)
  (_currentFilters st) (_completionStrings st) (emitted st) (next_oid st).
Definition upd_searchText v st := mkMainController
  (_args_file st) (_filteredTasks st) (_settings st) (_showCompleted st) (_showFuture st) (_file st)
  (_modified st) (_shownFilters st) (_title st) (_recentFiles st) v
  (_currentFilters st) (_completionStrings st) (emitted st) (next_oid st).
Definition upd_currentFilters v st := mkMainController
  (_args_file st) (_filteredTasks st) (_settings st) (_showCompleted st) (_showFuture st) (_file st)
  (_modified st) (_shownFilters st) (_title st) (_recentFiles st) (_searchText st)
  v (_completionStrings st) (emitted st) (next_oid st).
Definition upd_completionStrings v st := mkMainController
  (_args_file st) (_filteredTasks st) (_settings st) (_showCompleted st) (_showFuture st) (_file st)
  (_modified st) (_shownFilters st) (_title st) (_recentFiles st) (_searchText st)
  (_currentFilters st) v (emitted st) (next_oid st).
Definition upd_emitted v st := mkMainController
  (_args_file st) (_filteredTasks st) (_settings st) (_showCompleted st) (_showFuture st) (_file st)
  (_modified st) (_shownFilters st) (_title st) (_recentFiles st) (_searchText st)
  (_currentFilters st) (_completionStrings st) v (next_oid st).
Definition upd_next_oid v st := mkMainController
  (_args_file st) (_filteredTasks st) (_settings st) (_showCompleted st) (_showFuture st) (_file st)
  (_modified st) (_shownFilters st) (_title st) (_recentFiles st) (_searchText st)
  (_currentFilters st) (_completionStrings st) (emitted st) v.

(** [signal.emit(...)] *)
Definition emit (s : Signal) : M unit :=
  modify (fun st => upd_emitted (emitted st ++ [s]) st).

(** [QSettings.value(key, default)] and [QSettings.setValue(key, v)] *)
Definition settings_value (key : string) (default : Py.Value) : M Py.Value :=
  fun st => Return (match _settings st !! key with Some v => v | None => default end) st.
Definition settings_setValue (key : string) (v : Py.Value) : M unit :=
  modify (fun st => upd_settings (<[key := v]> (_settings st)) st).

(** ** The methods of [MainController] *)

Section Controller.
Variable env : Collaborators.

(** [tasklib.Task(text)]: a new object, its attributes parsed from the text. *)
Definition Task_new (o : nat) (txt : string) : Task := mkTask o txt (parse env txt).

(** Modelled from the spec: a task is future when its due date is present
    and strictly after today (section 4.2); [Task.is_future] is defined
    outside the controller's module. *)
Definition is_future (t : Task) : bool :=
  match dueDate t with
  | Some d => today env <? d
  | None => false
  end.

(** Modelled from the spec: the predicates of [qtodotxt.lib.filters], which
    are defined outside the controller's module (section 4.2).  The text
    predicate is a case-insensitive substring match on the task's text; the
    future filter, "used inverted" to hide future tasks, lets through the
    tasks that are not future; the complete and incomplete predicates
    compare [is_complete]. *)
Definition isMatch (f : Filter) (t : Task) : bool :=
  match f with
  | SimpleTextFilter txt => Py.str_contains (Py.lower txt) (Py.lower (text t))
  | FutureFilter => negb (is_future t)
  | IncompleteTasksFilter => negb (is_complete t)
  | CompleteTasksFilter => is_complete t
  end.

(** Modelled from the spec: a filter group has the semantics OR, a task
    passes it when it matches any of its predicates, and an empty group is
    vacuously true (sections 3 and 4.3). *)
Definition passes_group (g : list Filter) (t : Task) : bool :=
  match g with
  | [] => true
  | _ => existsb (fun f => isMatch f t) g
  end.

(** Modelled from the spec: [tasklib.filterTasks(filters, tasks)], which is
    defined outside the controller's module.  One call evaluates one filter
    group over the tasks in a single pass that keeps their order (section
    4.3); the result is a list of its own, so the controller's filtered list
    does not alias the store. *)
Definition filterTasks (filters : list Filter) (ts : list Task) : list Task :=
  List.filter (passes_group filters) ts.

(** Modelled from the spec: the evaluator [filter(groups, tasks)] in the
    words of section 4.3: a task is kept when it satisfies ALL groups. *)
Definition filter_groups (groups : list (list Filter)) (ts : list Task) : list Task :=
  List.filter (fun t => forallb (fun g => passes_group g t) groups) ts.

(** [self.error.emit(msg)]: the signal is declared [pyqtSignal(str)], so
    PyQt refuses an argument that is not a str with a TypeError. *)
Definition emit_TypeError : Py.Exn :=
  Py.mkExn Py.TypeError "MainController.error[str].emit(): argument 1 has unexpected type".

Definition error_emit (msg : Obj) : M unit :=
  match msg with
  | OStr s => emit (error s)
  | OExn _ => raise emit_TypeError
  end.

(** [logger.debug("ERROR", msg)] leaves no trace in the controller (a
    formatting error inside logging is handled by logging itself). *)
Definition showError (msg : Obj) : M unit :=
  error_emit msg.

(** [string.ascii_uppercase.index(v)] *)
Definition ascii_uppercase_index (v : Py.Value) : Py.Exn + nat :=
  match v with
  | Py.VStr s =>
      match String.index 0 s Py.ascii_uppercase with
      | Some n => inr n
      | None => inl (Py.mkExn Py.ValueError "substring not found")
      end
  | _ => inl (Py.mkExn Py.TypeError "must be str")
  end.

Definition _updateCompletionStrings : M unit :=
  st <- get ;;
  let contexts := map (String.append "@") (getAllContexts env (tasks (_file st))) in
  let projects := map (String.append "+") (getAllProjects env (tasks (_file st))) in
  lowest_priority <- settings_value "lowest_priority" (Py.VStr "D") ;;
  i <- lift (ascii_uppercase_index lowest_priority) ;;
  let idx := (i + 1)%nat in
  let priorities :=
    map (fun val => String.append "(" (String.append val ")"))
        (Py.chars (String.substring 0 idx Py.ascii_uppercase)) in
  modify (upd_completionStrings (contexts ++ projects ++ priorities ++ ["due:"])) ;;
  emit completionChanged.

Definition _updateTitle : M unit :=
  st <- get ;;
  let title := "QTodoTxt - " in
  let title :=
    if negb (String.eqb (filename (_file st)) "")
    then String.append title (Py.basename (filename (_file st)))
    else String.append title "Untitled" in
  let title := if _modified st then String.append title " (*)" else title in
  modify (upd_title title) ;;
  emit (titleChanged title).

Definition setModified (val : bool) : M unit :=
  modify (upd_modified val) ;;
  _updateTitle ;;
  _updateCompletionStrings ;;
  emit (modifiedChanged val).

Definition _applyFilters : M unit :=
  st <- get ;;
  (* First we filter with filters tree *)
  let ts := filterTasks (_currentFilters st) (tasks (_file st)) in
  (* Then with our search text *)
  let ts :=
    if negb (String.eqb (_searchText st) "")
    then filterTasks [SimpleTextFilter (_searchText st)] ts else ts in
  (* with future filter if needed *)
  let ts :=
    if negb (Py.truthy (_showFuture st))
    then filterTasks [FutureFilter] ts else ts in
  (* with complete filter if needed *)
  let ts :=
    if negb (Py.truthy (_showCompleted st))
       && negb (Py.contains CompleteTasksFilter (_currentFilters st))
    then filterTasks [IncompleteTasksFilter] ts else ts in
  modify (upd_filteredTasks ts) ;;
  emit filteredTasksChanged.

(** [save]: the flag says whether the [try] block went through, since the
    handler ends the method with [return]. Logging and [QSettings.sync()]
    change no attribute. *)
Definition save : M unit :=
  st <- get ;;
  let fname := filename (_file st) in
  saved <- try_except
             (match file_save env fname (tasks (_file st)) with
              | Some e => raise e
              | None => ret true
              end)
             Py.is_OSError
             (fun ex => showError (OExn ex) ;; ret false) ;;
  if saved : bool then
    settings_setValue "last_open_file" (Py.VStr fname) ;;
    setModified false
  else ret tt.

Definition auto_save : M unit :=
  v <- settings_value "auto_save" (Py.VInt 1) ;;
  n <- lift (Py.int v) ;;
  if n =? 0 then ret tt else save.

Definition _taskModified (task : Task) : M unit :=
  setModified true ;;
  _applyFilters ;;
  auto_save.

Definition filterRequest (idx : Z) : M unit :=
  modify (upd_currentFilters [item_filter env idx]) ;;
  _applyFilters.

(** [newTask(text, after)]: [after] is [None] when the caller leaves it
    out. Connecting the task's [modified] signal changes no attribute. *)
Definition newTask (txt : string) (after : option Z) : M Z :=
  st <- get ;;
  let task := Task_new (next_oid st) txt in
  modify (upd_next_oid (S (next_oid st))) ;;
  let after :=
    match after with
    | None => Z.of_nat (length (_filteredTasks st)) - 1
    | Some a => a
    end in
  modify (fun st => upd_file (mkFile (filename (_file st)) (tasks (_file st) ++ [task])) st) ;;
  (* force the new task to be visible *)
  modify (fun st => upd_filteredTasks (Py.insert (_filteredTasks st) (after + 1) task) st) ;;
  setModified true ;;
  auto_save ;;
  emit filteredTasksChanged ;;
  ret (after + 1).

(** [self._file.tasks.remove(task)] *)
Definition tasks_remove (task : Task) : M unit :=
  st <- get ;;
  match Py.remove task (tasks (_file st)) with
  | Some l => modify (upd_file (mkFile (filename (_file st)) l))
  | None => raise (Py.mkExn Py.ValueError "list.remove(x): x not in list")
  end.

Definition deleteTask (task : TaskRef) : M unit :=
  st <- get ;;
  task <- match task with
          | ByTask t => ret t
          | ByIndex i =>
              (* if task is not a task assume it is an int *)
              match Py.getitem (_filteredTasks st) i with
              | Some t => ret t
              | None => raise (Py.mkExn Py.IndexError "list index out of range")
              end
          end ;;
  tasks_remove task ;;
  setModified true ;;
  _applyFilters.

(** Property setters ([@showFuture.setter] and the like): QML hands in a
    bool, or a string for the search text. *)
Definition showFuture_setter (val : bool) : M unit :=
  modify (upd_showFuture (Py.VBool val)) ;;
  emit (showFutureChanged val) ;;
  _applyFilters.

Definition searchText_setter (txt : string) : M unit :=
  modify (upd_searchText txt) ;;
  _applyFilters ;;
  emit (searchTextChanged txt).

Definition showCompleted_setter (val : bool) : M unit :=
  modify (upd_showCompleted (Py.VBool val)) ;;
  emit (showCompletedChanged val) ;;
  _applyFilters.

(** The loop of [archiveCompletedTasks] over the completed tasks. *)
Fixpoint archive_loop (done : list Task) : M unit :=
  match done with
  | [] => ret tt
  | task :: rest =>
      match file_saveDoneTask env task with
      | Some e => raise e
      | None => ret tt
      end ;;
      tasks_remove task ;;
      archive_loop rest
  end.

(** [self._filters_tree_controller.showFilters(self._file, self._showCompleted)] *)
Definition showFilters : M unit :=
  modify (fun st => upd_shownFilters (Some (_file st, _showCompleted st)) st).

Definition archiveCompletedTasks : M unit :=
  st <- get ;;
  let done := List.filter is_complete (tasks (_file st)) in
  archive_loop done ;;
  showFilters ;;
  setModified true ;;
  auto_save.

Definition _loadFileToUI : M unit :=
  setModified false ;;
  showFilters.

(** One new Task object per line, with consecutive identities. *)
Fixpoint tasks_of_lines (o : nat) (lines : list string) : list Task :=
  match lines with
  | [] => []
  | l :: rest => Task_new o l :: tasks_of_lines (S o) rest
  end.

(** Modelled from the spec: [File.load(filename)], which is defined outside
    the controller's module: opening a file discards the store and recreates
    it, one
    new Task per non-blank line (section 3, "Lifecycle"); a failed load
    leaves the File object as it was. *)
Definition File_load (fname : string) : M unit :=
  match file_load env fname with
  | inl e => raise e
  | inr lines =>
      st <- get ;;
      modify (upd_file (mkFile fname (tasks_of_lines (next_oid st) lines))) ;;
      modify (upd_next_oid (next_oid st + length lines)%nat)
  end.

Definition updateRecentFile : M unit :=
  st <- get ;;
  let fname := filename (_file st) in
  match _recentFiles st with
  | Py.VList l =>
      l <- (if Py.contains fname l then
              match Py.remove fname l with
              | Some l' => ret l'
              | None => raise (Py.mkExn Py.ValueError "list.remove(x): x not in list")
              end
            else ret l) ;;
      let l := Py.insert l 0 fname in
      (* the list object is changed in place before the slice is taken *)
      modify (upd_recentFiles (Py.VList l)) ;;
      v <- settings_value "max_recent_files" (Py.VInt 6) ;;
      n <- lift (Py.int v) ;;
      let l := Py.slice_to l n in
      modify (upd_recentFiles (Py.VList l)) ;;
      settings_setValue "recent_files" (Py.VList l) ;;
      emit recentFilesChanged
  | Py.VStr _ =>
      raise (Py.mkExn Py.AttributeError "'str' object has no attribute")
  | _ =>
      raise (Py.mkExn Py.TypeError "argument is not iterable")
  end.

(** ["Error opening file: {}.\n Exception:{}".format(filename, ex)] *)
Definition open_error_msg (fname : string) (ex : Py.Exn) : string :=
  String.append "Error opening file: "
    (String.append fname
       (String.append "."
          (String.append Py.newline
             (String.append " Exception:" (Py.str_of_exn ex))))).

(** [open]: connecting each task's [modified] signal to [_taskModified] is
    wiring and changes no attribute. *)
Definition open (fname : string) : M unit :=
  let fname := if Py.startswith fname "file:/" then Py.str_drop 6 fname else fname in
  loaded <- try_except
              (File_load fname ;; ret true)
              (fun _ => true)
              (fun ex => showError (OStr (open_error_msg fname ex)) ;; ret false) ;;
  if loaded : bool then
    _loadFileToUI ;;
    settings_setValue "last_open_file" (Py.VStr fname) ;;
    _applyFilters ;;
    updateRecentFile
  else ret tt.

Definition reload : M unit :=
  st <- get ;;
  open (filename (_file st)).



(** [self.open(filename)] on what the settings returned. *)
Definition open_value (v : Py.Value) : M unit :=
  match v with
  | Py.VStr s => open s
  | _ => raise (Py.mkExn Py.AttributeError "object has no attribute 'startswith'")
  end.

Definition start : M unit :=
  st <- get ;;
  fname <- (match _args_file st with
            | Some f => if negb (String.eqb f "") then ret (Py.VStr f)
                        else settings_value "last_open_file" Py.VNone
            | None => settings_value "last_open_file" Py.VNone
            end) ;;
  (if Py.truthy fname then
     try_except (open_value fname) Py.is_OSError
       (fun ex => showError (OStr (Py.str_of_exn ex)))
   else ret tt) ;;
  _applyFilters ;;
  _updateTitle.

(** [QSettings().value(key, default)] on the persisted settings. *)
Definition persisted_value (settings : gmap string Py.Value) (key : string)
    (default : Py.Value) : Py.Value :=
  match settings !! key with Some v => v | None => default end.

(** [__init__(args)]: the attributes in the order they are assigned, then
    the first computation of the completion strings. *)
Definition __init__ (args_file : option string) (settings : gmap string Py.Value)
    : Outcome unit :=
  _updateCompletionStrings
    {| _args_file := args_file;
       _filteredTasks := [];
       _settings := settings;
       _showCompleted := persisted_value settings "show_completed" (Py.VBool false);
       _showFuture := persisted_value settings "show_completed" (Py.VBool true);
       _file := mkFile "" [];
       _modified := false;
       _shownFilters := None;
       _title := "QTodoTxt";
       _recentFiles := persisted_value settings "recent_files" (Py.VList []);
       _searchText := "";
       _currentFilters := [];
       _completionStrings := [];
       emitted := [];
       next_oid := 0 |}.

(** ** The composition the specification asks of a re-filter *)

(** The groups AND'd together for a controller state (section 4.4): the
    current filters, then the search text when there is one, the
    future-hiding group when future tasks are not shown, and the incomplete
    predicate when completed tasks are not shown and no show-complete
    filter is among the current ones. *)
Definition search_group (st : MainController) : list (list Filter) :=
  if String.eqb (_searchText st) "" then [] else [[SimpleTextFilter (_searchText st)]].

Definition future_group (st : MainController) : list (list Filter) :=
  if Py.truthy (_showFuture st) then [] else [[FutureFilter]].

Definition incomplete_group (st : MainController) : list (list Filter) :=
  if Py.truthy (_showCompleted st) then []
  else if Py.contains CompleteTasksFilter (_currentFilters st) then []
  else [[IncompleteTasksFilter]].

Definition composed_groups (st : MainController) : list (list Filter) :=
  [_currentFilters st] ++ search_group st ++ future_group st ++ incomplete_group st.

(** Re-running the evaluator over the current store. *)
Definition refiltered (st : MainController) : list Task :=
  filter_groups (composed_groups st) (tasks (_file st)).

End Controller.

(** ** Sample collaborators and states for the examples *)

(** A parser that reads the completion marker only. *)
Definition sample_parse (s : string) : Parsed :=
  mkParsed None [] [] None (String.prefix "x " s) None None.

(** A disk on which every file is empty and every write has the given
    result. *)
Definition sample_env (save_result : option Py.Exn) : Collaborators :=
  {| parse := sample_parse;
     today := 738000;
     file_load := fun _ => inr [];
     file_save := fun _ _ => save_result;
     file_saveDoneTask := fun _ => None;
     getAllContexts := fun _ => [];
     getAllProjects := fun _ => [];
     item_filter := fun _ => IncompleteTasksFilter |}.

Definition good_disk : Collaborators := sample_env None.
Definition read_only_disk : Collaborators :=
  sample_env (Some (Py.mkExn Py.OSError "[Errno 13] Permission denied: 'todo.txt'")).

(** The controller right after construction, with nothing persisted. *)
Definition just_built : MainController := final (__init__ good_disk None ∅).

Definition task_a : Task := Task_new good_disk 100 "(A) Buy milk @home".
Definition task_b : Task := Task_new good_disk 101 "x 2021-01-01 Clean garage +chores".

(** A controller showing a two-task file, everything visible. *)
Definition two_tasks : MainController :=
  upd_showCompleted (Py.VBool true)
    (upd_filteredTasks [task_a; task_b]
       (upd_file (mkFile "/home/u/todo.txt" [task_a; task_b]) just_built)).



(** The two-task controller after "milk" was typed into the search box
    behind its back: the filtered list still shows both tasks. *)
Definition stale_search : MainController := upd_searchText "milk" two_tasks.



(** A controller on an empty file with a search text typed in. *)
Definition searching : MainController :=
  upd_searchText "milk" (upd_file (mkFile "/home/u/todo.txt" []) just_built).

(** A list without the first occurrence of an element, as the guarded
    [remove] of [updateRecentFile] leaves it. *)
Definition without_first {A} `{EqDecision A} (x : A) (l : list A) : list A :=
  match Py.remove x l with
  | Some r => r
  | None => l
  end.

(** A disk whose done file cannot be written. *)
Definition done_file_locked : Collaborators :=
  mkCollaborators sample_parse 738000 (fun _ => inr []) (fun _ _ => None)
    (fun _ => Some (Py.mkExn Py.OSError "[Errno 13] Permission denied: 'done.txt'"))
    (fun _ => []) (fun _ => []) (fun _ => IncompleteTasksFilter).

(** The file [start] sets out to open: the one named on the command line,
    or else the one last opened. *)
Definition start_filename (st : MainController) : Py.Value :=
  match _args_file st with
  | Some f => if String.eqb f "" then persisted_value (_settings st) "last_open_file" Py.VNone
              else Py.VStr f
  | None => persisted_value (_settings st) "last_open_file" Py.VNone
  end.

(** A disk on which no file can be read. *)
Definition unreadable_disk : Collaborators :=
  mkCollaborators sample_parse 738000
    (fun _ => inl (Py.mkExn Py.OSError "[Errno 2] No such file or directory"))
    (fun _ _ => None) (fun _ => None) (fun _ => []) (fun _ => [])
    (fun _ => IncompleteTasksFilter).

(** A disk on which every file holds the same two lines. *)
Definition two_line_disk : Collaborators :=
  mkCollaborators sample_parse 738000
    (fun _ => inr ["Call Bob"; "x 2021-02-02 Pay rent"])
    (fun _ _ => None) (fun _ => None) (fun _ => []) (fun _ => [])
    (fun _ => IncompleteTasksFilter).

(** The controller just built, told on the command line to open a file. *)
Definition told_to_open : MainController :=
  final (__init__ good_disk (Some "/home/u/todo.txt") ∅).



Definition bad_priority : MainController :=
  upd_settings (<["lowest_priority" := Py.VStr "d"]> ∅) two_tasks.

Definition bad_max : MainController :=
  upd_settings (<["max_recent_files" := Py.VStr "many"]> ∅) two_tasks.

(** The same stale search under a lowest priority that is no upper-case
    letter. *)
Definition stale_bad_priority : MainController := upd_searchText "milk" bad_priority.

(** Whether [_updateCompletionStrings] finds the lowest priority among the
    upper-case letters, that is, whether [setModified] runs to its end. *)
Definition lowest_priority_ok (st : MainController) : bool :=
  match _settings st !! "lowest_priority" with
  | Some (Py.VStr s) => Py.str_contains s Py.ascii_uppercase
  | Some _ => false
  | None => true
  end.

(** Everything of the controller but the log of emitted signals. *)
Definition attributes (st : MainController) : MainController := upd_emitted [] st.

(** What a re-filter reads, together with the filtered list itself. *)
Record FilterView := mkFilterView {
  v_file : File;
  v_filteredTasks : list Task;
  v_currentFilters : list Filter;
  v_searchText : string;
  v_showFuture : Py.Value;
  v_showCompleted : Py.Value
}.

Definition filter_view (st : MainController) : FilterView :=
  mkFilterView (_file st) (_filteredTasks st) (_currentFilters st) (_searchText st)
    (_showFuture st) (_showCompleted st).

(** The task a deletion request designates: the Task itself, or the one at
    that position of the filtered list. *)
Definition resolve (task : TaskRef) (st : MainController) : option Task :=
  match task with
  | ByTask t => Some t
  | ByIndex i => Py.getitem (_filteredTasks st) i
  end.

(** The attributes [setModified] assigns, on top of a state. *)
Definition modified_as (val : bool) (title : string) (cs : list string)
    (sigs : list Signal) (st : MainController) : MainController :=
  upd_emitted sigs (upd_completionStrings cs (upd_title title (upd_modified val st))).

(** The state [save] reaches once the file is written, before [setModified]. *)
Definition last_open_recorded (st : MainController) : MainController :=
  upd_settings (<["last_open_file" := Py.VStr (filename (_file st))]> (_settings st)) st.

(** Unfolds the plumbing of the monad, leaving the methods' own steps. *)
Ltac run_monad :=
  unfold bind, try_except, lift, get, ret, raise, emit, settings_setValue,
    settings_value, modify.

(** * Properties *)

(** ** The filter evaluator *)

Section FilterFacts.
Variable env : Collaborators.

Lemma filter_twice {A} (f g : A -> bool) (l : list A) :
  List.filter f (List.filter g l) = List.filter (fun x => g x && f x) l.
Proof.
  induction l as [|x l IH]; simpl; [reflexivity|].
  destruct (g x); simpl; [destruct (f x)|]; rewrite IH; reflexivity.
Qed.

Lemma filter_groups_nil (ts : list Task) : filter_groups env [] ts = ts.
Proof.
  unfold filter_groups; simpl.
  induction ts as [|t ts IH]; simpl; congruence.
Qed.

Lemma filterTasks_nil (ts : list Task) : filterTasks env [] ts = ts.
Proof.
  unfold filterTasks.
  induction ts as [|t ts IH]; simpl; congruence.
Qed.

Lemma filter_groups_cons g gs (ts : list Task) :
  filter_groups env (g :: gs) ts = filter_groups env gs (filterTasks env g ts).
Proof. unfold filter_groups, filterTasks. rewrite filter_twice. reflexivity. Qed.

Lemma filter_groups_app gs1 gs2 (ts : list Task) :
  filter_groups env (gs1 ++ gs2) ts = filter_groups env gs2 (filter_groups env gs1 ts).
Proof.
  revert ts. induction gs1 as [|g gs1 IH]; intros ts; simpl.
  - now rewrite filter_groups_nil.
  - now rewrite !filter_groups_cons, IH.
Qed.

Lemma filter_groups_single g (ts : list Task) :
  filter_groups env [g] ts = filterTasks env g ts.
Proof. now rewrite filter_groups_cons, filter_groups_nil. Qed.

(** The evaluator is the chain of [filterTasks] calls, one per group. *)
Lemma filter_groups_fold gs (ts : list Task) :
  filter_groups env gs ts = fold_left (fun acc g => filterTasks env g acc) gs ts.
Proof.
  revert ts. induction gs as [|g gs IH]; intros ts; simpl.
  - apply filter_groups_nil.
  - now rewrite filter_groups_cons, IH.
Qed.

Lemma filter_sublist {A} (f : A -> bool) (l : list A) : sublist (List.filter f l) l.
Proof.
  induction l as [|x l IH]; simpl; [constructor|].
  destruct (f x); now constructor.
Qed.

Lemma In_filter_groups gs (ts : list Task) t :
  In t (filter_groups env gs ts) <->
  In t ts /\ forall g, In g gs -> passes_group env g t = true.
Proof.
  unfold filter_groups. rewrite filter_In, forallb_forall. reflexivity.
Qed.

(** C2. Applying the evaluator to an empty sequence of filter groups is the
    identity: [filter([], T) == T] for every task list [T]; so is the call
    [filterTasks([], T)] the controller makes while no filter is selected. *)
Theorem filter_empty_groups_identity (T : list Task) :
  filter_groups env [] T = T /\ filterTasks env [] T = T.
Proof.
  split; [apply filter_groups_nil | apply filterTasks_nil].
Qed.

(** On the evaluator of section 4.3 the complete and the incomplete group
    together keep no task, and neither no group nor an empty group drops
    one. *)
Lemma filter_contradictory_empty_identity (T : list Task) :
  filter_groups env [[CompleteTasksFilter]; [IncompleteTasksFilter]] T = []
  /\ filter_groups env [] T = T
  /\ filter_groups env [[]] T = T.
Proof.
  split; [|split].
  - unfold filter_groups. induction T as [|t T IH]; simpl; [reflexivity|].
    destruct (is_complete t); simpl; exact IH.
  - apply filter_groups_nil.
  - now rewrite filter_groups_single, filterTasks_nil.
Qed.

(** C4. Filtering preserves order: for every sequence of groups and every
    task list the output is a subsequence of the input, so the surviving
    tasks keep their relative order and are the input's tasks, unchanged.
    A re-filter by the controller leaves the store as it was and its
    filtered list is a subsequence of the store. *)
Theorem filter_preserves_order (groups : list (list Filter)) (T : list Task)
    (st : MainController) :
  sublist (filter_groups env groups T) T
  /\ _file (final (_applyFilters env st)) = _file st
  /\ sublist (_filteredTasks (final (_applyFilters env st))) (tasks (_file st)).
Proof.
  split; [apply filter_sublist|]. split; [reflexivity|].
  unfold _applyFilters, bind, get, modify, emit; simpl.
  repeat match goal with
         | |- context [if ?b then _ else _] => destruct b
         end;
    unfold filterTasks;
    repeat (etransitivity; [apply filter_sublist|]); reflexivity.
Qed.

End FilterFacts.

(** ** Re-filtering *)

Section Refilter.
Variable env : Collaborators.

Lemma applyFilters_run (st : MainController) :
  _applyFilters env st =
  Return tt (upd_emitted (emitted st ++ [filteredTasksChanged])
               (upd_filteredTasks (refiltered env st) st)).
Proof.
  unfold _applyFilters, bind, get, modify, emit; simpl.
  do 3 f_equal.
  unfold refiltered, composed_groups, search_group, future_group, incomplete_group.
  rewrite !filter_groups_app, filter_groups_single.
  destruct (String.eqb (_searchText st) ""), (Py.truthy (_showFuture st)),
    (Py.truthy (_showCompleted st)),
    (Py.contains CompleteTasksFilter (_currentFilters st));
    simpl; rewrite ?filter_groups_single, ?filter_groups_nil; reflexivity.
Qed.

Lemma passes_single f t : passes_group env [f] t = isMatch env f t.
Proof. simpl. apply orb_false_r. Qed.

(** C1. A re-filter applies the current filters to the store; a non-empty
    search text adds a text predicate over it, a disabled future toggle adds
    the future-hiding filter, and a disabled completion toggle adds the
    incomplete predicate unless a show-complete filter is among the current
    filters; all are AND'd, and the outcome becomes the filtered list. *)
Theorem applyFilters_composition (st : MainController) :
  (exists st', _applyFilters env st = Return tt st'
     /\ _filteredTasks st' = filter_groups env (composed_groups st) (tasks (_file st))
     /\ filter_view st' =
        mkFilterView (_file st) (_filteredTasks st') (_currentFilters st)
          (_searchText st) (_showFuture st) (_showCompleted st))
  /\ forall t,
       In t (filter_groups env (composed_groups st) (tasks (_file st))) <->
       In t (tasks (_file st))
       /\ passes_group env (_currentFilters st) t = true
       /\ (_searchText st <> "" ->
           isMatch env (SimpleTextFilter (_searchText st)) t = true)
       /\ (Py.truthy (_showFuture st) = false -> isMatch env FutureFilter t = true)
       /\ (Py.truthy (_showCompleted st) = false ->
           Py.contains CompleteTasksFilter (_currentFilters st) = false ->
           isMatch env IncompleteTasksFilter t = true).
Proof.
  split.
  - eexists. split; [apply applyFilters_run|]. split; reflexivity.
  - intros t. rewrite In_filter_groups.
    unfold composed_groups, search_group, future_group, incomplete_group.
    destruct (String.eqb_spec (_searchText st) "") as [Hs|Hs];
      destruct (Py.truthy (_showFuture st));
      destruct (Py.truthy (_showCompleted st));
      destruct (Py.contains CompleteTasksFilter (_currentFilters st));
      cbn [app In];
      (split; [intros [Hin Hg]; repeat split; try easy;
                 intros; rewrite <- ?passes_single; apply Hg; cbn [In]; tauto
              | intros (Hin & Hc & Ht & Hf & Hi); split; [exact Hin|];
                 intros g Hg; repeat destruct Hg as [<-|Hg];
                 rewrite ?passes_single; auto; easy]).
Qed.

End Refilter.

(** ** What [setModified] and [save] touch *)

Section Frames.
Variable env : Collaborators.

Lemma final_bind {A B} (m : M A) (k : A -> M B) (st : MainController) :
  final (bind m k st) =
  match m st with
  | Return a st' => final (k a st')
  | Raise _ st' => st'
  end.
Proof. unfold bind. destruct (m st); reflexivity. Qed.

Lemma modified_as_self (st : MainController) :
  modified_as (_modified st) (_title st) (_completionStrings st) (emitted st) st = st.
Proof. destruct st; reflexivity. Qed.

Lemma lowest_priority_ok_index (st : MainController) :
  lowest_priority_ok st = true ->
  exists n, ascii_uppercase_index
              (match _settings st !! "lowest_priority" with
               | Some v => v
               | None => Py.VStr "D"
               end) = inr n.
Proof.
  unfold lowest_priority_ok, ascii_uppercase_index, Py.str_contains.
  destruct (_settings st !! "lowest_priority") as [[| | |s|]|]; try discriminate.
  - destruct (String.index 0 s Py.ascii_uppercase); [eauto|discriminate].
  - intros _. exists 3%nat. reflexivity.
Qed.

Lemma updateCompletionStrings_shape (st : MainController) :
  let st' := final (_updateCompletionStrings env st) in
  st' = upd_emitted (emitted st') (upd_completionStrings (_completionStrings st') st).
Proof.
  unfold _updateCompletionStrings; run_monad.
  destruct (ascii_uppercase_index _) as [e|n]; [destruct st|]; reflexivity.
Qed.

Lemma updateCompletionStrings_ok (st : MainController) :
  lowest_priority_ok st = true ->
  exists cs,
    _updateCompletionStrings env st =
    Return tt (upd_emitted (emitted st ++ [completionChanged]) (upd_completionStrings cs st)).
Proof.
  intros Hok. destruct (lowest_priority_ok_index st Hok) as [n Hn].
  unfold _updateCompletionStrings; run_monad.
  rewrite Hn. eexists. reflexivity.
Qed.

(** Whatever happens inside, [setModified val] assigns the flag and touches
    nothing but the flag, the title, the completion strings and signals. *)
Lemma setModified_shape (val : bool) (st : MainController) :
  let st' := final (setModified env val st) in
  st' = modified_as val (_title st') (_completionStrings st') (emitted st') st.
Proof.
  unfold setModified, _updateTitle; run_monad.
  match goal with |- context [_updateCompletionStrings env ?s] => set (s1 := s) end.
  pose proof (updateCompletionStrings_shape s1) as Hs. cbv zeta in Hs.
  destruct (_updateCompletionStrings env s1) as [[] s2|e s2]; simpl in Hs;
    cbv zeta; simpl; rewrite Hs; subst s1; reflexivity.
Qed.

Lemma setModified_ok (val : bool) (st : MainController) :
  lowest_priority_ok st = true ->
  exists st', setModified env val st = Return tt st'.
Proof.
  intros Hok. unfold setModified, _updateTitle; run_monad.
  match goal with |- context [_updateCompletionStrings env ?s] => set (s1 := s) end.
  destruct (updateCompletionStrings_ok s1 Hok) as (cs & Hs).
  rewrite Hs. eexists. reflexivity.
Qed.

(** The same two facts in the form the proofs below use. *)
Lemma setModified_final (val : bool) (st : MainController) :
  exists title cs sigs, final (setModified env val st) = modified_as val title cs sigs st.
Proof. do 3 eexists. apply setModified_shape. Qed.

Lemma setModified_returns (val : bool) (st : MainController) :
  lowest_priority_ok st = true ->
  exists title cs sigs, setModified env val st = Return tt (modified_as val title cs sigs st).
Proof.
  intros Hok. destruct (setModified_ok val st Hok) as [st' Hst'].
  destruct (setModified_final val st) as (title & cs & sigs & Hf).
  rewrite Hst' in Hf. simpl in Hf. subst st'. eauto.
Qed.

Lemma save_failure (st : MainController) (e : Py.Exn) :
  file_save env (filename (_file st)) (tasks (_file st)) = Some e ->
  save env st = Raise (if Py.is_OSError e then emit_TypeError else e) st.
Proof.
  intros He. unfold save, showError, error_emit; run_monad. rewrite He.
  destruct (Py.is_OSError e); reflexivity.
Qed.

Lemma save_success (st : MainController) :
  file_save env (filename (_file st)) (tasks (_file st)) = None ->
  save env st = setModified env false (last_open_recorded st).
Proof.
  intros He. unfold save; run_monad. rewrite He. reflexivity.
Qed.


Lemma save_view (st : MainController) :
  filter_view (final (save env st)) = filter_view st.
Proof.
  destruct (file_save env (filename (_file st)) (tasks (_file st))) as [e|] eqn:He.
  - rewrite (save_failure st e He). reflexivity.
  - rewrite (save_success st He).
    destruct (setModified_final false (last_open_recorded st)) as (ti & cs & sg & ->).
    reflexivity.
Qed.

Lemma auto_save_cases (st : MainController) :
  final (auto_save env st) = st \/ auto_save env st = save env st.
Proof.
  unfold auto_save; run_monad.
  destruct (Py.int _) as [e|n]; [left; reflexivity|].
  destruct (n =? 0); [left|right]; reflexivity.
Qed.

Lemma auto_save_view (st : MainController) :
  filter_view (final (auto_save env st)) = filter_view st.
Proof.
  destruct (auto_save_cases st) as [-> | ->]; [reflexivity | apply save_view].
Qed.

Lemma refiltered_view (st st' : MainController) :
  filter_view st' = filter_view st -> refiltered env st' = refiltered env st.
Proof.
  unfold filter_view. intros [= Hf _ Hc Hs Hfu Hco].
  unfold refiltered, composed_groups, search_group, future_group, incomplete_group.
  rewrite Hf, Hc, Hs, Hfu, Hco. reflexivity.
Qed.

Lemma view_filteredTasks (st st' : MainController) :
  filter_view st' = filter_view st ->
  _filteredTasks st' = _filteredTasks st /\ _file st' = _file st.
Proof. unfold filter_view. intros [= Hf Hft _ _ _ _]. auto. Qed.

End Frames.

(** ** Python list operations *)

Section ListFacts.
Context {A : Type} `{EqDecision A}.

Lemma remove_split (x : A) (l l' : list A) :
  Py.remove x l = Some l' ->
  exists l1 l2, l = (l1 ++ x :: l2)%list /\ l' = (l1 ++ l2)%list /\ ~ In x l1.
Proof.
  revert l'. induction l as [|y l IH]; intros l'; simpl; [discriminate|].
  case_bool_decide as Hy.
  - intros [= <-]. subst y. exists [], l. simpl. tauto.
  - destruct (Py.remove x l) as [r|]; simpl; [|discriminate].
    intros [= <-]. destruct (IH r eq_refl) as (l1 & l2 & -> & -> & Hn).
    exists (y :: l1), l2. simpl. repeat split; try reflexivity.
    intros [Heq|Hin]; [exact (Hy Heq) | exact (Hn Hin)].
Qed.

Lemma remove_None (x : A) (l : list A) : Py.remove x l = None <-> ~ In x l.
Proof.
  induction l as [|y l IH]; simpl; [tauto|].
  case_bool_decide as Hy.
  - split; [discriminate | intros Hn; exfalso; apply Hn; now left].
  - destruct (Py.remove x l); simpl.
    + split; [discriminate|]. intros Hn. exfalso.
      destruct IH as [_ IH']. enough (Some l0 = None) by discriminate.
      apply IH'. tauto.
    + split; [|reflexivity]. intros _ [Heq|Hin]; [exact (Hy Heq)|].
      destruct IH as [IH' _]. exact (IH' eq_refl Hin).
Qed.

Lemma contains_In (x : A) (l : list A) : Py.contains x l = true <-> In x l.
Proof.
  unfold Py.contains. rewrite existsb_exists. split.
  - intros (y & Hin & Hy). apply bool_decide_eq_true in Hy. now subst.
  - intros Hin. exists x. split; [exact Hin | now apply bool_decide_eq_true].
Qed.

Lemma insert_front (l : list A) (x : A) : Py.insert l 0 x = x :: l.
Proof.
  unfold Py.insert, Py.clamp_index. simpl.
  replace (Z.to_nat (Z.min (Z.of_nat (length l)) 0)) with 0%nat by lia.
  reflexivity.
Qed.









End ListFacts.

(** ** Deleting a task *)

Section Deletion.
Variable env : Collaborators.

Lemma deleteTask_resolved (ref : TaskRef) (st : MainController) (t : Task) (l : list Task) :
  resolve ref st = Some t ->
  Py.remove t (tasks (_file st)) = Some l ->
  deleteTask env ref st =
  bind (setModified env true) (fun _ => _applyFilters env)
    (upd_file (mkFile (filename (_file st)) l) st).
Proof.
  intros Hr Hl. unfold deleteTask, tasks_remove.
  destruct ref as [t'|i]; simpl in Hr.
  - injection Hr as ->. run_monad. rewrite Hl. reflexivity.
  - run_monad. rewrite Hr, Hl. reflexivity.
Qed.

Lemma deleteTask_no_such_position (i : Z) (st : MainController) :
  Py.getitem (_filteredTasks st) i = None ->
  deleteTask env (ByIndex i) st =
  Raise (Py.mkExn Py.IndexError "list index out of range") st.
Proof. intros Hr. unfold deleteTask; run_monad. rewrite Hr. reflexivity. Qed.

Lemma deleteTask_not_in_store (ref : TaskRef) (st : MainController) (t : Task) :
  resolve ref st = Some t ->
  Py.remove t (tasks (_file st)) = None ->
  deleteTask env ref st =
  Raise (Py.mkExn Py.ValueError "list.remove(x): x not in list") st.
Proof.
  intros Hr Hl. unfold deleteTask, tasks_remove.
  destruct ref as [t'|i]; simpl in Hr.
  - injection Hr as ->. run_monad. rewrite Hl. reflexivity.
  - run_monad. rewrite Hr, Hl. reflexivity.
Qed.

(** After the removal the store is final: nothing that follows touches it. *)
Lemma deleteTask_store (ref : TaskRef) (st : MainController) (t : Task) (l : list Task) :
  resolve ref st = Some t ->
  Py.remove t (tasks (_file st)) = Some l ->
  _file (final (deleteTask env ref st)) = mkFile (filename (_file st)) l.
Proof.
  intros Hr Hl. rewrite (deleteTask_resolved ref st t l Hr Hl).
  set (s1 := upd_file _ st). rewrite final_bind.
  destruct (setModified_final env true s1) as (ti & cs & sg & Hf).
  destruct (setModified env true s1) as [[] s2|e s2]; simpl in Hf; subst s2.
  - rewrite applyFilters_run. reflexivity.
  - reflexivity.
Qed.

Lemma deleteTask_returns (ref : TaskRef) (st : MainController) (t : Task) (l : list Task) :
  lowest_priority_ok st = true ->
  resolve ref st = Some t ->
  Py.remove t (tasks (_file st)) = Some l ->
  exists st', deleteTask env ref st = Return tt st'
    /\ tasks (_file st') = l
    /\ _filteredTasks st' = refiltered env st'.
Proof.
  intros Hok Hr Hl. rewrite (deleteTask_resolved ref st t l Hr Hl).
  set (s1 := upd_file _ st).
  destruct (setModified_returns env true s1 Hok) as (ti & cs & sg & Hs).
  unfold bind. rewrite Hs, applyFilters_run.
  eexists. split; [reflexivity|]. split; reflexivity.
Qed.

(** C9. [deleteTask] takes a Task or a position: an argument that is not a
    Task is an index into the filtered list, and the task at that position
    is the one removed from the store (its first occurrence there; the
    rest of the store keeps its order). With a valid lowest-priority
    setting the call returns normally. *)
Theorem deleteTask_by_position (st : MainController) (i : Z) (t : Task) (l : list Task) :
  Py.getitem (_filteredTasks st) i = Some t ->
  Py.remove t (tasks (_file st)) = Some l ->
  deleteTask env (ByIndex i) st = deleteTask env (ByTask t) st
  /\ tasks (_file (final (deleteTask env (ByIndex i) st))) = l
  /\ (exists l1 l2, tasks (_file st) = (l1 ++ t :: l2)%list /\ l = (l1 ++ l2)%list
        /\ ~ In t l1)
  /\ (lowest_priority_ok st = true ->
      returned (deleteTask env (ByIndex i) st) = true).
Proof.
  intros Hi Hl. repeat split.
  - rewrite (deleteTask_resolved (ByIndex i) st t l Hi Hl).
    rewrite (deleteTask_resolved (ByTask t) st t l eq_refl Hl). reflexivity.
  - rewrite (deleteTask_store (ByIndex i) st t l Hi Hl). reflexivity.
  - apply remove_split. exact Hl.
  - intros Hok.
    destruct (deleteTask_returns (ByIndex i) st t l Hok Hi Hl) as (st' & -> & _).
    reflexivity.
Qed.

End Deletion.

(** The first row of a two-task list is deleted by its position. *)
Lemma deleteTask_by_position_witness :
  Py.getitem (_filteredTasks two_tasks) 0 = Some task_a
  /\ Py.remove task_a (tasks (_file two_tasks)) = Some [task_b]
  /\ deleteTask good_disk (ByIndex 0) two_tasks = deleteTask good_disk (ByTask task_a) two_tasks
  /\ tasks (_file (final (deleteTask good_disk (ByIndex 0) two_tasks))) = [task_b]
  /\ (exists l1 l2, tasks (_file two_tasks) = (l1 ++ task_a :: l2)%list
        /\ [task_b] = (l1 ++ l2)%list /\ ~ In task_a l1)
  /\ (lowest_priority_ok two_tasks = true ->
      returned (deleteTask good_disk (ByIndex 0) two_tasks) = true).
Proof.
  split; [reflexivity|]. split; [reflexivity|].
  apply (deleteTask_by_position good_disk two_tasks 0 task_a [task_b]); reflexivity.
Defined.

(** ** The filtered list after a mutation of the store *)

Section Mutations.
Variable env : Collaborators.

Lemma taskModified_run (task : Task) (st : MainController) :
  lowest_priority_ok st = true ->
  exists title cs sigs,
    let s1 := modified_as true title cs sigs st in
    _taskModified env task st =
    auto_save env (upd_emitted (emitted s1 ++ [filteredTasksChanged])
                     (upd_filteredTasks (refiltered env s1) s1)).
Proof.
  intros Hok.
  destruct (setModified_returns env true st Hok) as (ti & cs & sg & Hs).
  exists ti, cs, sg. unfold _taskModified, bind.
  rewrite Hs, applyFilters_run. reflexivity.
Qed.

Lemma taskModified_refilters (task : Task) (st : MainController) :
  lowest_priority_ok st = true ->
  let st' := final (_taskModified env task st) in
  _file st' = _file st /\ _filteredTasks st' = refiltered env st'.
Proof.
  intros Hok. destruct (taskModified_run task st Hok) as (ti & cs & sg & Hrun).
  cbv zeta in *. rewrite Hrun.
  match goal with |- context [auto_save env ?s] => set (s2 := s) end.
  pose proof (auto_save_view env s2) as Hv.
  destruct (view_filteredTasks _ _ Hv) as [Hft Hfile].
  rewrite (refiltered_view env _ _ Hv), Hft, Hfile.
  split; reflexivity.
Qed.

Lemma newTask_run (txt : string) (after : option Z) (st : MainController) :
  let task := Task_new env (next_oid st) txt in
  let pos := match after with
             | None => Z.of_nat (length (_filteredTasks st)) - 1
             | Some a => a
             end + 1 in
  newTask env txt after st =
  bind (setModified env true)
    (fun _ => bind (auto_save env)
       (fun _ => bind (emit filteredTasksChanged) (fun _ => ret pos)))
    (upd_filteredTasks (Py.insert (_filteredTasks st) pos task)
       (upd_file (mkFile (filename (_file st)) (tasks (_file st) ++ [task]))
          (upd_next_oid (S (next_oid st)) st))).
Proof. reflexivity. Qed.

Lemma newTask_forces_visible (txt : string) (after : option Z) (st : MainController) :
  let st' := final (newTask env txt after st) in
  let task := Task_new env (next_oid st) txt in
  let pos := match after with
             | None => Z.of_nat (length (_filteredTasks st)) - 1
             | Some a => a
             end + 1 in
  tasks (_file st') = (tasks (_file st) ++ [task])%list
  /\ _filteredTasks st' = Py.insert (_filteredTasks st) pos task.
Proof.
  cbv zeta. rewrite newTask_run. cbv zeta.
  match goal with |- context [bind (setModified env true) ?k ?s] => set (s1 := s) end.
  rewrite final_bind.
  destruct (setModified_final env true s1) as (ti & cs & sg & Hf).
  destruct (setModified env true s1) as [[] s2|e s2]; simpl in Hf; subst s2;
    [|split; reflexivity].
  rewrite final_bind.
  match goal with |- context [auto_save env ?s] => set (s2 := s) end.
  pose proof (auto_save_view env s2) as Hv.
  destruct (view_filteredTasks _ _ Hv) as [Hft Hfile].
  destruct (auto_save env s2) as [[] s3|e s3]; simpl in Hft, Hfile.
  - run_monad. simpl. rewrite Hft, Hfile. split; reflexivity.
  - rewrite Hft, Hfile. split; reflexivity.
Qed.

(** C5, amended. After a task-edit notification, and after a deletion
    that finds its task, the filtered list is the evaluator re-run over the
    current store with the current filters, search text and toggles,
    provided the lowest-priority setting is valid (so that [setModified] runs
    to its end). A deletion that finds no task raises and changes nothing.
    [newTask] does not re-filter: it appends the new task to the store and
    inserts it into the filtered list at the position after the given row
    (after the last row by default), whatever the filters say. *)
Theorem refilter_after_mutation (st : MainController) :
  (lowest_priority_ok st = true ->
   (forall task,
      let st' := final (_taskModified env task st) in
      _file st' = _file st /\ _filteredTasks st' = refiltered env st')
   /\ (forall ref t l,
         resolve ref st = Some t ->
         Py.remove t (tasks (_file st)) = Some l ->
         exists st', deleteTask env ref st = Return tt st'
           /\ tasks (_file st') = l
           /\ _filteredTasks st' = refiltered env st'))
  /\ (forall ref,
        (resolve ref st = None ->
         deleteTask env ref st =
         Raise (Py.mkExn Py.IndexError "list index out of range") st)
        /\ (forall t,
              resolve ref st = Some t ->
              Py.remove t (tasks (_file st)) = None ->
              deleteTask env ref st =
              Raise (Py.mkExn Py.ValueError "list.remove(x): x not in list") st))
  /\ (forall txt after,
        let st' := final (newTask env txt after st) in
        let task := Task_new env (next_oid st) txt in
        let pos := match after with
                   | None => Z.of_nat (length (_filteredTasks st)) - 1
                   | Some a => a
                   end + 1 in
        tasks (_file st') = (tasks (_file st) ++ [task])%list
        /\ _filteredTasks st' = Py.insert (_filteredTasks st) pos task).
Proof.
  split; [|split].
  - intros Hok. split.
    + intros task. apply taskModified_refilters. exact Hok.
    + intros ref t l Hr Hl. apply (deleteTask_returns env ref st t l Hok Hr Hl).
  - intros ref. split.
    + intros Hr. destruct ref as [t|i]; [discriminate|].
      apply deleteTask_no_such_position. exact Hr.
    + intros t Hr Hl. apply (deleteTask_not_in_store env ref st t Hr Hl).
  - intros txt after. apply newTask_forces_visible.
Qed.

End Mutations.

(** While "milk" is searched for, a new task "bread" is shown although the
    evaluator would hide it; a task added after the first row sits there in
    the filtered list and last in the store. Under a lowest priority that is
    no upper-case letter a task-edit notification raises before it re-filters,
    and the stale list stays. *)
Lemma newTask_not_refiltered :
  (_filteredTasks searching = refiltered good_disk searching
   /\ _filteredTasks (final (newTask good_disk "bread" None searching)) <>
      refiltered good_disk (final (newTask good_disk "bread" None searching)))
  /\ (_filteredTasks two_tasks = refiltered good_disk two_tasks
      /\ _filteredTasks (final (newTask good_disk "c" (Some 0) two_tasks)) <>
         refiltered good_disk (final (newTask good_disk "c" (Some 0) two_tasks)))
  /\ (lowest_priority_ok stale_bad_priority = false
      /\ _filteredTasks (final (_taskModified good_disk task_a stale_bad_priority)) <>
         refiltered good_disk (final (_taskModified good_disk task_a stale_bad_priority))).
Proof.
  split; [|split]; (split; [vm_compute; reflexivity | vm_compute; discriminate]).
Qed.

(** With "milk" typed in and both tasks still listed, a task-edit
    notification or a deletion brings the filtered list down to what the
    search lets through. *)
Lemma refilter_after_mutation_witness :
  lowest_priority_ok stale_search = true
  /\ _filteredTasks stale_search = [task_a; task_b]
  /\ (let st' := final (_taskModified good_disk task_a stale_search) in
      _filteredTasks st' = refiltered good_disk st' /\ _filteredTasks st' = [task_a])
  /\ (exists st', deleteTask good_disk (ByIndex 1) stale_search = Return tt st'
        /\ tasks (_file st') = [task_a]
        /\ _filteredTasks st' = refiltered good_disk st'
        /\ _filteredTasks st' = [task_a]).
Proof.
  split; [reflexivity|]. split; [reflexivity|].
  destruct (refilter_after_mutation good_disk stale_search) as [H _].
  destruct (H eq_refl) as [Hedit Hdel]. split.
  - destruct (Hedit task_a) as [Hfile Hft]. cbv zeta. split; [exact Hft|].
    rewrite Hft. unfold refiltered. rewrite Hfile. reflexivity.
  - destruct (Hdel (ByIndex 1) task_b [task_a] eq_refl eq_refl)
      as (st' & Hrun & Hstore & Hft).
    exists st'. split; [exact Hrun|]. split; [exact Hstore|]. split; [exact Hft|].
    rewrite Hft. injection Hrun as <-. reflexivity.
Defined.

(** ** Saving and opening *)

Section Saving.
Variable env : Collaborators.

(** C10. A failed save is atomic: when [File.save] raises, the controller
    is left as it was, signals apart; the modified flag keeps its value and
    the persisted "last_open_file" is not written. When the save goes
    through, "last_open_file" holds the file's name and the flag is
    cleared. *)
Theorem save_atomic (st : MainController) :
  let st' := final (save env st) in
  match file_save env (filename (_file st)) (tasks (_file st)) with
  | Some e =>
      attributes st' = attributes st
      /\ _modified st' = _modified st
      /\ _settings st' = _settings st
  | None =>
      _settings st' !! "last_open_file" = Some (Py.VStr (filename (_file st)))
      /\ _modified st' = false
  end.
Proof.
  cbv zeta.
  destruct (file_save env (filename (_file st)) (tasks (_file st))) as [e|] eqn:He.
  - rewrite (save_failure env st e He). simpl. auto.
  - rewrite (save_success env st He).
    destruct (setModified_final env false (last_open_recorded st)) as (ti & cs & sg & ->).
    simpl. split; [apply lookup_insert_eq | reflexivity].
Qed.

(** A load that fails is reported: [open] returns, having emitted the
    error signal with a message, and nothing else has changed. *)
Lemma open_failure_reported (fname : string) (st : MainController) (e : Py.Exn) :
  let path := if Py.startswith fname "file:/" then Py.str_drop 6 fname else fname in
  file_load env path = inl e ->
  open env fname st =
  Return tt (upd_emitted (emitted st ++ [error (open_error_msg path e)]) st).
Proof.
  cbv zeta. intros He. unfold open, File_load, showError, error_emit; run_monad.
  rewrite He. reflexivity.
Qed.

(** A save that fails with an OSError is not: the handler passes the
    exception object to a signal of strings. *)
Lemma save_OSError_not_reported (st : MainController) (e : Py.Exn) :
  file_save env (filename (_file st)) (tasks (_file st)) = Some e ->
  Py.is_OSError e = true ->
  save env st = Raise emit_TypeError st.
Proof. intros He Hos. rewrite (save_failure env st e He), Hos. reflexivity. Qed.

(** C6. At construction the completed-tasks flag (default False) and the
    future-tasks flag (default True) are both read from the settings key
    "show_completed": a stored value becomes the value of both, the defaults
    apply when the key is absent, and no other key has a say. *)
Theorem init_flags_share_key (args_file : option string) (settings : gmap string Py.Value) :
  let st := final (__init__ env args_file settings) in
  _showCompleted st = persisted_value settings "show_completed" (Py.VBool false)
  /\ _showFuture st = persisted_value settings "show_completed" (Py.VBool true)
  /\ (forall v, settings !! "show_completed" = Some v ->
        _showCompleted st = v /\ _showFuture st = v)
  /\ (settings !! "show_completed" = None ->
        _showCompleted st = Py.VBool false /\ _showFuture st = Py.VBool true)
  /\ (forall key v, key <> "show_completed" ->
        let st2 := final (__init__ env args_file (<[key := v]> settings)) in
        _showCompleted st2 = _showCompleted st /\ _showFuture st2 = _showFuture st).
Proof.
  assert (Hflags : forall s,
    _showCompleted (final (__init__ env args_file s)) =
      persisted_value s "show_completed" (Py.VBool false)
    /\ _showFuture (final (__init__ env args_file s)) =
      persisted_value s "show_completed" (Py.VBool true)).
  { intros s. unfold __init__.
    match goal with |- context [_updateCompletionStrings env ?s0] =>
      rewrite (updateCompletionStrings_shape env s0) end.
    split; reflexivity. }
  cbv zeta. destruct (Hflags settings) as [Hc Hf]. rewrite Hc, Hf.
  split; [reflexivity|]. split; [reflexivity|]. split; [|split].
  - intros v Hv. unfold persisted_value. rewrite Hv. auto.
  - intros Hv. unfold persisted_value. rewrite Hv. auto.
  - intros key v Hk. destruct (Hflags (<[key := v]> settings)) as [Hc2 Hf2].
    rewrite Hc2, Hf2. unfold persisted_value.
    rewrite lookup_insert_ne by exact Hk. auto.
Qed.

End Saving.

(** C7. On a disk that refuses the write, [save] does not report the
    failure: no error signal is emitted and a TypeError leaves the method. *)
Theorem save_failure_escapes :
  file_save read_only_disk (filename (_file two_tasks)) (tasks (_file two_tasks)) =
    Some (Py.mkExn Py.OSError "[Errno 13] Permission denied: 'todo.txt'")
  /\ save read_only_disk two_tasks = Raise emit_TypeError two_tasks
  /\ emitted (final (save read_only_disk two_tasks)) = emitted two_tasks
  /\ returned (save read_only_disk two_tasks) = false.
Proof. repeat split; reflexivity. Qed.

(** A stored string is handed to both flags, and the string "false" is a
    true value. *)
Example init_flags_stored_string :
  let st := final (__init__ good_disk None (<["show_completed" := Py.VStr "false"]> ∅)) in
  _showCompleted st = Py.VStr "false" /\ _showFuture st = Py.VStr "false"
  /\ Py.truthy (_showFuture st) = true.
Proof. vm_compute. repeat split; reflexivity. Qed.

Example init_flags_show_future_ignored :
  let st := final (__init__ good_disk None (<["show_future" := Py.VBool false]> ∅)) in
  _showCompleted st = Py.VBool false /\ _showFuture st = Py.VBool true.
Proof. vm_compute. repeat split; reflexivity. Qed.

(** ** The recent-files list *)

Section RecentFiles.



End RecentFiles.



(** ** Examples *)

(** An empty filter set keeps the task it is given. *)
Lemma filter_empty_set_keeps_tasks :
  filter_groups good_disk [] [task_a] = [task_a]
  /\ filter_groups good_disk [] [task_a] <> [].
Proof. split; [reflexivity | discriminate]. Qed.

(** Store [[T1(complete), T2(incomplete)]], groups [[[Incomplete]]]: [[T2]]. *)
Example filter_incomplete_scenario :
  is_complete task_b = true /\ is_complete task_a = false
  /\ filter_groups good_disk [[IncompleteTasksFilter]] [task_b; task_a] = [task_a].
Proof. repeat split; reflexivity. Qed.

(** The text predicate ignores case; groups are OR inside and AND across. *)
Example filter_text_scenario :
  filter_groups good_disk [[SimpleTextFilter "MILK"; SimpleTextFilter "garage"]]
    [task_a; task_b] = [task_a; task_b]
  /\ filter_groups good_disk [[SimpleTextFilter "MILK"]; [SimpleTextFilter "garage"]]
       [task_a; task_b] = [].
Proof. split; reflexivity. Qed.

(** A task due tomorrow is hidden while future tasks are not shown. *)
Example future_scenario :
  let due_tomorrow :=
    mkTask 7 "Pay rent due:tomorrow" (mkParsed None [] [] (Some 738001) false None None) in
  let st := upd_filteredTasks [due_tomorrow]
              (upd_file (mkFile "todo.txt" [due_tomorrow]) just_built) in
  _filteredTasks (final (showFuture_setter good_disk false st)) = []
  /\ _filteredTasks (final (showFuture_setter good_disk true st)) = [due_tomorrow].
Proof. vm_compute. split; reflexivity. Qed.

(** Opening a file that cannot be read reports the error and returns. *)
Example open_failure_scenario :
  let disk := mkCollaborators sample_parse 738000
                (fun _ => inl (Py.mkExn Py.OSError "No such file"))
                (fun _ _ => None) (fun _ => None) (fun _ => []) (fun _ => [])
                (fun _ => IncompleteTasksFilter) in
  returned (open disk "file://tmp/x.txt" just_built) = true
  /\ exists msg, emitted (final (open disk "file://tmp/x.txt" just_built)) =
                 [completionChanged; error msg].
Proof. split; [reflexivity | eexists; reflexivity]. Qed.

Example int_of_str_ex :
  Py.int_of_str " 12 " = Some 12 /\ Py.int_of_str "-1_0" = Some (-10) /\
  Py.int_of_str "" = None /\ Py.int_of_str "1__0" = None /\ Py.int_of_str "6x" = None.
Proof. repeat split; reflexivity. Qed.

Example int_of_str_space_ex :
  Py.int_of_str (String (ascii_of_nat 160) "0") = Some 0
  /\ Py.int_of_str (String (ascii_of_nat 28) "5") = Some 5
  /\ Py.int_of_str (String (ascii_of_nat 133) "7 ") = Some 7
  /\ Py.int_of_str (String (ascii_of_nat 178) "") = None.
Proof. repeat split; reflexivity. Qed.

Example getitem_ex :
  Py.getitem [1; 2; 3] (-1) = Some 3 /\ Py.getitem [1; 2; 3] 3 = None /\
  Py.getitem [1; 2; 3] (-4) = None /\ Py.getitem [1; 2; 3] 0 = Some 1.
Proof. repeat split; reflexivity. Qed.

Example insert_ex :
  Py.insert [1; 2; 3] (-1) 9 = [1; 2; 9; 3] /\ Py.insert [1; 2; 3] 7 9 = [1; 2; 3; 9] /\
  Py.insert [1; 2; 3] (-7) 9 = [9; 1; 2; 3] /\ Py.slice_to [1; 2; 3] (-1) = [1; 2] /\
  Py.slice_to [1; 2; 3] 6 = [1; 2; 3] /\ Py.slice_to [1; 2; 3] 0 = [].
Proof. repeat split; reflexivity. Qed.

Example basename_ex : Py.basename "/home/u/todo.txt" = "todo.txt" /\ Py.basename "a/" = "".
Proof. split; reflexivity. Qed.

(** * Further properties of the controller *)

(** ** The modified flag, the title and the completion strings *)

Section TitleAndCompletion.
Variable env : Collaborators.

Lemma append_empty_r (s : string) : String.append s "" = s.
Proof.
  induction s as [|c s IH]; [reflexivity|].
  change (String c (String.append s "") = String c s). now rewrite IH.
Qed.

Lemma lowest_priority_bad_index (st : MainController) :
  lowest_priority_ok st = false ->
  exists e, ascii_uppercase_index
              (match _settings st !! "lowest_priority" with
               | Some v => v
               | None => Py.VStr "D"
               end) = inl e
            /\ (Py.exn_class e = Py.ValueError \/ Py.exn_class e = Py.TypeError).
Proof.
  unfold lowest_priority_ok, ascii_uppercase_index, Py.str_contains.
  destruct (_settings st !! "lowest_priority") as [[| | |s|]|]; try discriminate;
    try (intros _; eexists; split; [reflexivity | right; reflexivity]).
  destruct (String.index 0 s Py.ascii_uppercase); [discriminate|].
  intros _. eexists. split; [reflexivity | left; reflexivity].
Qed.

Lemma chars_length (s : string) : length (Py.chars s) = String.length s.
Proof. induction s as [|c s IH]; simpl; congruence. Qed.

Lemma substring_prefix_length (n : nat) (s : string) :
  String.length (String.substring 0 n s) = Nat.min n (String.length s).
Proof.
  revert n. induction s as [|c s IH]; intros [|n]; simpl; try reflexivity.
  now rewrite IH.
Qed.

(** Where a string is found in a non-empty string, a character is left. *)
Lemma index_lt_length (sub s : string) (i : nat) :
  String.index 0 sub s = Some i -> s <> "" -> (i < String.length s)%nat.
Proof.
  revert i. induction s as [|c s IH]; intros i Hi Hne; [congruence|].
  cbn [String.index] in Hi. destruct (String.prefix sub (String c s)) eqn:Hp.
  - injection Hi as <-. simpl. lia.
  - destruct (String.index 0 sub s) as [n|] eqn:Hn; [|discriminate].
    injection Hi as <-. simpl. apply -> Nat.succ_lt_mono. apply IH; [reflexivity|].
    intros ->. destruct sub; simpl in Hn, Hp; discriminate.
Qed.

Lemma setModified_facts (val : bool) (st : MainController) :
  let st' := final (setModified env val st) in
  _modified st' = val
  /\ _title st' =
     String.append "QTodoTxt - "
       (String.append
          (if String.eqb (filename (_file st)) "" then "Untitled"
           else Py.basename (filename (_file st)))
          (if val then " (*)" else ""))
  /\ filter_view st' = filter_view st
  /\ _settings st' = _settings st
  /\ _recentFiles st' = _recentFiles st.
Proof.
  cbv zeta. unfold setModified, _updateTitle; run_monad.
  match goal with |- context [_updateCompletionStrings env ?s] => set (s1 := s) end.
  pose proof (updateCompletionStrings_shape env s1) as Hs. cbv zeta in Hs.
  assert (Ht : _title s1 =
     String.append "QTodoTxt - "
       (String.append
          (if String.eqb (filename (_file st)) "" then "Untitled"
           else Py.basename (filename (_file st)))
          (if val then " (*)" else ""))).
  { subst s1. cbn [_title upd_emitted upd_title upd_modified _modified _file].
    destruct (String.eqb (filename (_file st)) ""), val; cbn [negb];
      rewrite ?append_empty_r; reflexivity. }
  assert (Hm : _modified s1 = val) by reflexivity.
  assert (Hv : filter_view s1 = filter_view st) by reflexivity.
  assert (Hse : _settings s1 = _settings st) by reflexivity.
  assert (Hr : _recentFiles s1 = _recentFiles st) by reflexivity.
  clearbody s1.
  destruct (_updateCompletionStrings env s1) as [[] s2|e s2]; simpl in Hs;
    cbn [final]; rewrite Hs; simpl; unfold filter_view in *; simpl;
    rewrite Ht, Hm, Hse, Hr; repeat split; try reflexivity; exact Hv.
Qed.

(** [setModified(val)] assigns the flag first, so in every outcome the flag
    is [val] and the title is "QTodoTxt - " followed by the base name of the
    open file, or "Untitled" when none is open, and by " (*)" exactly when
    [val] is set; the store, the filtered list, the filters and the settings
    are not touched. *)
Theorem setModified_flag_and_title (val : bool) (st : MainController) :
  let st' := final (setModified env val st) in
  _modified st' = val
  /\ _title st' =
     String.append "QTodoTxt - "
       (String.append
          (if String.eqb (filename (_file st)) "" then "Untitled"
           else Py.basename (filename (_file st)))
          (if val then " (*)" else ""))
  /\ filter_view st' = filter_view st
  /\ _settings st' = _settings st
  /\ _recentFiles st' = _recentFiles st.
Proof. exact (setModified_facts val st). Qed.

(** With a lowest-priority setting that is found among the upper-case
    letters at index [i], the completion strings are the contexts with "@",
    the projects with "+", the first [i + 1] priorities in parentheses and
    "due:" last; [i] is at most 25, and nothing else changes but the signal
    sent. *)
Theorem completionStrings_content (st : MainController) (i : nat) :
  ascii_uppercase_index
    (match _settings st !! "lowest_priority" with
     | Some v => v
     | None => Py.VStr "D"
     end) = inr i ->
  let priorities :=
    map (fun val => String.append "(" (String.append val ")"))
        (Py.chars (String.substring 0 (i + 1) Py.ascii_uppercase)) in
  exists st',
    _updateCompletionStrings env st = Return tt st'
    /\ _completionStrings st' =
       (map (String.append "@") (getAllContexts env (tasks (_file st)))
        ++ map (String.append "+") (getAllProjects env (tasks (_file st)))
        ++ priorities ++ ["due:"])%list
    /\ head priorities = Some "(A)"
    /\ length priorities = (i + 1)%nat
    /\ (i <= 25)%nat
    /\ emitted st' = (emitted st ++ [completionChanged])%list
    /\ upd_completionStrings [] (attributes st') = upd_completionStrings [] (attributes st).
Proof.
  intros Hi. cbv zeta. eexists. split.
  - unfold _updateCompletionStrings; run_monad. rewrite Hi. reflexivity.
  - assert (Hb : (i < 26)%nat).
    { unfold ascii_uppercase_index in Hi.
      destruct (match _settings st !! "lowest_priority" with
                | Some v => v
                | None => Py.VStr "D"
                end) as [| | |p|]; try discriminate.
      destruct (String.index 0 p Py.ascii_uppercase) as [n|] eqn:Hn; [|discriminate].
      injection Hi as <-.
      apply (index_lt_length p Py.ascii_uppercase n Hn). discriminate. }
    split; [reflexivity|]. split; [|split; [|split; [lia | split; reflexivity]]].
    + replace (i + 1)%nat with (S i) by lia. reflexivity.
    + rewrite length_map, chars_length, substring_prefix_length.
      change (String.length Py.ascii_uppercase) with 26%nat. lia.
Qed.

(** With a lowest-priority setting that is not a str, or is not found among
    the upper-case letters, [setModified(val)] raises a TypeError or a
    ValueError after the flag and the title are assigned: the flag is [val],
    the title signal is the only one sent, and [modifiedChanged] is not. *)
Theorem setModified_bad_priority (val : bool) (st : MainController) :
  lowest_priority_ok st = false ->
  exists e st',
    setModified env val st = Raise e st'
    /\ (Py.exn_class e = Py.ValueError \/ Py.exn_class e = Py.TypeError)
    /\ _modified st' = val
    /\ emitted st' = (emitted st ++ [titleChanged (_title st')])%list
    /\ _completionStrings st' = _completionStrings st.
Proof.
  intros Hbad. destruct (lowest_priority_bad_index st Hbad) as (e & He & Hc).
  exists e. eexists. split.
  - unfold setModified, _updateTitle, _updateCompletionStrings; run_monad.
    cbn [_settings upd_emitted upd_title upd_modified]. rewrite He. reflexivity.
  - split; [exact Hc|]. repeat split; reflexivity.
Qed.

(** The constructor returns exactly when the persisted lowest priority is
    absent or is a str found among the upper-case letters; the controller
    then has no file, no task, no filter, no search text, is unmodified and
    has sent [completionChanged] only. Otherwise the constructor raises. *)
Theorem init_returns_iff (args_file : option string) (settings : gmap string Py.Value) :
  let o := __init__ env args_file settings in
  returned o =
    match settings !! "lowest_priority" with
    | Some (Py.VStr p) => Py.str_contains p Py.ascii_uppercase
    | Some _ => false
    | None => true
    end
  /\ _file (final o) = mkFile "" []
  /\ _filteredTasks (final o) = []
  /\ _currentFilters (final o) = []
  /\ _searchText (final o) = ""
  /\ _modified (final o) = false
  /\ _title (final o) = "QTodoTxt"
  /\ _settings (final o) = settings
  /\ emitted (final o) = (if returned o then [completionChanged] else []).
Proof.
  cbv zeta. unfold __init__, _updateCompletionStrings; run_monad.
  cbn [_settings]. unfold ascii_uppercase_index, Py.str_contains.
  destruct (settings !! "lowest_priority") as [[| | |p|]|];
    try (repeat split; reflexivity).
  destruct (String.index 0 p Py.ascii_uppercase); repeat split; reflexivity.
Qed.

End TitleAndCompletion.

Lemma completionStrings_content_witness :
  exists st',
    _updateCompletionStrings good_disk two_tasks = Return tt st'
    /\ _completionStrings st' = ["(A)"; "(B)"; "(C)"; "(D)"; "due:"].
Proof.
  destruct (completionStrings_content good_disk two_tasks 3 eq_refl)
    as (st' & Hrun & Hcs & _).
  exists st'. split; [exact Hrun | exact Hcs].
Defined.

Lemma setModified_bad_priority_witness :
  lowest_priority_ok bad_priority = false
  /\ exists e st',
       setModified good_disk true bad_priority = Raise e st'
       /\ _modified st' = true.
Proof.
  split; [reflexivity|].
  destruct (setModified_bad_priority good_disk true bad_priority eq_refl)
    as (e & st' & Hrun & _ & Hm & _).
  exists e, st'. split; [exact Hrun | exact Hm].
Defined.

(** ** Auto-save after a mutation *)

Section AutoSave.
Variable env : Collaborators.





End AutoSave.


(** ** Positions in the filtered list *)

Section Positions.
Context {A : Type} `{EqDecision A}.




(** A negative index names the element that many places from the end. *)
Lemma getitem_negative (l : list A) (i : Z) :
  - Z.of_nat (length l) <= i < 0 ->
  Py.getitem l i = Py.getitem l (Z.of_nat (length l) + i).
Proof.
  intros Hi. unfold Py.getitem.
  replace (0 <=? i) with false by (symmetry; apply Z.leb_gt; lia).
  replace (i <? 0) with true by (symmetry; apply Z.ltb_lt; lia).
  replace (- Z.of_nat (length l) <=? i) with true by (symmetry; apply Z.leb_le; lia).
  replace (0 <=? Z.of_nat (length l) + i) with true by (symmetry; apply Z.leb_le; lia).
  replace (Z.of_nat (length l) + i <? Z.of_nat (length l)) with true
    by (symmetry; apply Z.ltb_lt; lia).
  reflexivity.
Qed.

Lemma getitem_out_of_range (l : list A) (i : Z) :
  i < - Z.of_nat (length l) \/ Z.of_nat (length l) <= i -> Py.getitem l i = None.
Proof.
  intros Hi. unfold Py.getitem.
  destruct ((0 <=? i) && (i <? Z.of_nat (length l))) eqn:E1.
  { apply andb_true_iff in E1 as [E1 E2]. apply Z.leb_le in E1. apply Z.ltb_lt in E2. lia. }
  destruct ((- Z.of_nat (length l) <=? i) && (i <? 0)) eqn:E2; [|reflexivity].
  apply andb_true_iff in E2 as [E2 E3]. apply Z.leb_le in E2. apply Z.ltb_lt in E3. lia.
Qed.

End Positions.

(** ** Adding and deleting *)

Section AddDelete.
Variable env : Collaborators.


Lemma deleteTask_same_task (r1 r2 : TaskRef) (st : MainController) :
  resolve r1 st = resolve r2 st -> deleteTask env r1 st = deleteTask env r2 st.
Proof.
  intros Hr. destruct (resolve r1 st) as [t|] eqn:H1.
  - symmetry in Hr. destruct (Py.remove t (tasks (_file st))) as [l|] eqn:Hl.
    + rewrite (deleteTask_resolved env r1 st t l H1 Hl).
      rewrite (deleteTask_resolved env r2 st t l Hr Hl). reflexivity.
    + rewrite (deleteTask_not_in_store env r1 st t H1 Hl).
      rewrite (deleteTask_not_in_store env r2 st t Hr Hl). reflexivity.
  - symmetry in Hr. destruct r1 as [?|i1]; [discriminate|].
    destruct r2 as [?|i2]; [discriminate|].
    rewrite !deleteTask_no_such_position by assumption. reflexivity.
Qed.

(** A negative position counts from the end of the filtered list: deleting
    at [i], for [-len <= i < 0], is deleting at [len + i], so -1 deletes the
    last row; a position below [-len] or from [len] on raises IndexError and
    changes nothing, on an empty filtered list every position does. *)
Theorem deleteTask_index_bounds (st : MainController) (i : Z) :
  let len := Z.of_nat (length (_filteredTasks st)) in
  (- len <= i < 0 ->
   deleteTask env (ByIndex i) st = deleteTask env (ByIndex (len + i)) st)
  /\ (i < - len \/ len <= i ->
      deleteTask env (ByIndex i) st =
      Raise (Py.mkExn Py.IndexError "list index out of range") st).
Proof.
  cbv zeta. split.
  - intros Hi. apply deleteTask_same_task. simpl. apply getitem_negative. exact Hi.
  - intros Hi. apply deleteTask_no_such_position. apply getitem_out_of_range. exact Hi.
Qed.

(** [deleteTask] marks the controller modified and never saves: when it
    returns, the flag is set and the settings are as before, whatever the
    auto-save setting; the last signal sent is [filteredTasksChanged]. *)
Theorem deleteTask_never_saves (ref : TaskRef) (st : MainController) (t : Task)
    (l : list Task) :
  lowest_priority_ok st = true ->
  resolve ref st = Some t ->
  Py.remove t (tasks (_file st)) = Some l ->
  exists st',
    deleteTask env ref st = Return tt st'
    /\ _modified st' = true
    /\ _settings st' = _settings st
    /\ last (emitted st') = Some filteredTasksChanged.
Proof.
  intros Hok Hr Hl. rewrite (deleteTask_resolved env ref st t l Hr Hl).
  set (s1 := upd_file _ st).
  assert (Hok1 : lowest_priority_ok s1 = true) by exact Hok.
  destruct (setModified_returns env true s1 Hok1) as (ti & cs & sg & Hs).
  unfold bind. rewrite Hs, applyFilters_run.
  eexists. split; [reflexivity|]. split; [reflexivity|]. split; [reflexivity|].
  cbn. apply last_snoc.
Qed.

End AddDelete.


Lemma deleteTask_never_saves_witness :
  exists st',
    deleteTask good_disk (ByIndex (-1)) two_tasks = Return tt st'
    /\ _modified st' = true
    /\ _settings st' = _settings two_tasks.
Proof.
  destruct (deleteTask_never_saves good_disk (ByIndex (-1)) two_tasks task_b [task_a])
    as (st' & Hrun & Hm & Hs & _); [reflexivity | reflexivity | reflexivity |].
  exists st'. split; [exact Hrun|]. split; [exact Hm | exact Hs].
Defined.

Lemma deleteTask_index_bounds_witness :
  - Z.of_nat (length (_filteredTasks two_tasks)) <= -1 < 0
  /\ deleteTask good_disk (ByIndex (-1)) two_tasks = deleteTask good_disk (ByIndex 1) two_tasks
  /\ deleteTask good_disk (ByIndex 2) two_tasks =
     Raise (Py.mkExn Py.IndexError "list index out of range") two_tasks.
Proof.
  destruct (deleteTask_index_bounds good_disk two_tasks (-1)) as [H1 _].
  destruct (deleteTask_index_bounds good_disk two_tasks 2) as [_ H2].
  split; [vm_compute; split; [discriminate | reflexivity]|].
  split.
  - apply H1. vm_compute. split; [discriminate | reflexivity].
  - apply H2. right. vm_compute. discriminate.
Defined.

(** ** Archiving completed tasks *)

Section Archive.
Variable env : Collaborators.

Lemma remove_app_skip (x : Task) (pre l : list Task) :
  (forall y, In y pre -> y <> x) ->
  Py.remove x (pre ++ l) = option_map (app pre) (Py.remove x l).
Proof.
  induction pre as [|y pre IH]; intros Hne; simpl.
  - destruct (Py.remove x l); reflexivity.
  - rewrite bool_decide_false by (apply Hne; now left).
    rewrite IH by (intros z Hz; apply Hne; now right).
    destruct (Py.remove x l); reflexivity.
Qed.

Lemma upd_file_same (st : MainController) :
  upd_file (mkFile (filename (_file st)) (tasks (_file st))) st = st.
Proof. destruct st as [? ? ? ? ? [? ?] ? ? ? ? ? ? ? ? ?]; reflexivity. Qed.

(** The loop over the completed tasks of a stretch [r] of the store, between
    incomplete tasks [pre] and any tasks [suf]: as long as every write to
    the done file goes through, the stretch loses its completed tasks. *)
Lemma archive_loop_stretch (r pre suf : list Task) (st : MainController) :
  tasks (_file st) = (pre ++ r ++ suf)%list ->
  (forall t, In t pre -> is_complete t = false) ->
  (forall t, In t r -> is_complete t = true -> file_saveDoneTask env t = None) ->
  archive_loop env (List.filter is_complete r) st =
  Return tt (upd_file (mkFile (filename (_file st))
                         (pre ++ List.filter (fun t => negb (is_complete t)) r ++ suf)) st).
Proof.
  revert pre st. induction r as [|x r IH]; intros pre st Hst Hpre Hsave.
  - simpl in *. rewrite <- Hst, upd_file_same. reflexivity.
  - simpl. destruct (is_complete x) eqn:Hx; simpl.
    + rewrite (Hsave x (or_introl eq_refl) Hx).
      unfold bind at 1, ret at 1. unfold bind at 1, tasks_remove. run_monad.
      rewrite Hst, remove_app_skip.
      2:{ intros y Hy ->. specialize (Hpre _ Hy). congruence. }
      simpl. rewrite bool_decide_true by reflexivity. simpl.
      rewrite (IH pre); [reflexivity | reflexivity | exact Hpre |].
      intros t Ht. apply Hsave. now right.
    + rewrite (IH (pre ++ [x])%list st).
      * rewrite <- !app_assoc. reflexivity.
      * rewrite Hst, <- app_assoc. reflexivity.
      * intros t Ht. apply in_app_or in Ht as [Ht|[<-|[]]]; auto.
      * intros t Ht. apply Hsave. now right.
Qed.

Lemma archive_loop_app (d1 d2 : list Task) (st : MainController) :
  archive_loop env (d1 ++ d2) st =
  bind (archive_loop env d1) (fun _ => archive_loop env d2) st.
Proof.
  revert st. induction d1 as [|t d1 IH]; intros st; [reflexivity|].
  simpl. unfold tasks_remove; run_monad.
  destruct (file_saveDoneTask env t); [reflexivity|].
  destruct (Py.remove t (tasks (_file st))); [|reflexivity].
  rewrite IH. reflexivity.
Qed.

Lemma archive_rest_view (st : MainController) :
  filter_view (final ((showFilters ;; setModified env true ;; auto_save env)%py st)) =
  filter_view st.
Proof.
  unfold showFilters. unfold bind at 1, modify at 1.
  set (s1 := upd_shownFilters _ st). rewrite final_bind.
  destruct (setModified_final env true s1) as (ti & cs & sg & Hf).
  destruct (setModified env true s1) as [[] s2|e s2]; simpl in Hf; subst s2;
    [|reflexivity].
  rewrite auto_save_view. reflexivity.
Qed.

Lemma archive_run (st : MainController) :
  (forall t, In t (tasks (_file st)) -> is_complete t = true ->
             file_saveDoneTask env t = None) ->
  archiveCompletedTasks env st =
  (showFilters ;; setModified env true ;; auto_save env)%py
    (upd_file (mkFile (filename (_file st))
                 (List.filter (fun t => negb (is_complete t)) (tasks (_file st)))) st).
Proof.
  intros Hsave. unfold archiveCompletedTasks.
  unfold bind at 1, get at 1. unfold bind at 1.
  rewrite (archive_loop_stretch (tasks (_file st)) [] [] st);
    [| now rewrite app_nil_r | intros t [] | exact Hsave].
  rewrite app_nil_r. reflexivity.
Qed.

(** When every write to the done file goes through,
    [archiveCompletedTasks] leaves exactly the incomplete tasks in the store,
    in their order, under the same file name. It does not re-filter: the
    filtered list is what it was, archived tasks included. *)
Theorem archive_keeps_incomplete (st : MainController) :
  (forall t, In t (tasks (_file st)) -> is_complete t = true ->
             file_saveDoneTask env t = None) ->
  let st' := final (archiveCompletedTasks env st) in
  _file st' =
    mkFile (filename (_file st))
      (List.filter (fun t => negb (is_complete t)) (tasks (_file st)))
  /\ _filteredTasks st' = _filteredTasks st.
Proof.
  intros Hsave. cbv zeta. rewrite (archive_run st Hsave).
  match goal with |- context [bind showFilters ?k ?s] =>
    pose proof (archive_rest_view s) as Hv end.
  destruct (view_filteredTasks _ _ Hv) as [Hft Hfile].
  split; [exact Hfile | exact Hft].
Qed.

(** When the write to the done file fails at a completed task, the call
    raises that exception: the completed tasks before it are archived and
    gone from the store, that task and all after it remain, and the
    controller is neither marked modified nor told to refresh anything. *)
Theorem archive_stops_at_failure (st : MainController) (r1 r2 : list Task)
    (t : Task) (e : Py.Exn) :
  tasks (_file st) = (r1 ++ t :: r2)%list ->
  (forall x, In x r1 -> is_complete x = true -> file_saveDoneTask env x = None) ->
  is_complete t = true ->
  file_saveDoneTask env t = Some e ->
  archiveCompletedTasks env st =
  Raise e (upd_file (mkFile (filename (_file st))
                       (List.filter (fun x => negb (is_complete x)) r1 ++ t :: r2)) st).
Proof.
  intros Hst Hsave Ht He. unfold archiveCompletedTasks.
  unfold bind at 1, get at 1. unfold bind at 1.
  rewrite Hst, List.filter_app. simpl. rewrite Ht.
  rewrite archive_loop_app. unfold bind at 1.
  rewrite (archive_loop_stretch r1 [] (t :: r2) st);
    [| exact Hst | intros x [] | exact Hsave].
  cbn [app archive_loop]. unfold bind at 1. rewrite He. reflexivity.
Qed.

(** After an archive that went through, the row of an archived task is
    still in the filtered list, and deleting at that row raises ValueError
    and changes nothing: the task is no longer in the store. *)
Theorem deleteTask_archived_row (st : MainController) (i : Z) (t : Task) :
  (forall x, In x (tasks (_file st)) -> is_complete x = true ->
             file_saveDoneTask env x = None) ->
  Py.getitem (_filteredTasks st) i = Some t ->
  is_complete t = true ->
  let st' := final (archiveCompletedTasks env st) in
  Py.getitem (_filteredTasks st') i = Some t
  /\ deleteTask env (ByIndex i) st' =
     Raise (Py.mkExn Py.ValueError "list.remove(x): x not in list") st'.
Proof.
  intros Hsave Hi Ht. cbv zeta.
  assert (Hfacts :
    _file (final (archiveCompletedTasks env st)) =
      mkFile (filename (_file st))
        (List.filter (fun t => negb (is_complete t)) (tasks (_file st)))
    /\ _filteredTasks (final (archiveCompletedTasks env st)) = _filteredTasks st).
  { rewrite (archive_run st Hsave).
    match goal with |- context [bind showFilters ?k ?s] =>
      pose proof (archive_rest_view s) as Hv end.
    destruct (view_filteredTasks _ _ Hv) as [Hft Hfile].
    split; [exact Hfile | exact Hft]. }
  destruct Hfacts as [Hfile Hft].
  set (st' := final (archiveCompletedTasks env st)) in *.
  split; [rewrite Hft; exact Hi|].
  apply (deleteTask_not_in_store env (ByIndex i) st' t).
  - simpl. rewrite Hft. exact Hi.
  - apply remove_None. rewrite Hfile. simpl. intros Hin.
    apply filter_In in Hin as [_ Hn]. rewrite Ht in Hn. discriminate.
Qed.

End Archive.

Lemma archive_keeps_incomplete_witness :
  _file (final (archiveCompletedTasks good_disk two_tasks)) =
    mkFile "/home/u/todo.txt" [task_a]
  /\ _filteredTasks (final (archiveCompletedTasks good_disk two_tasks)) = [task_a; task_b].
Proof.
  apply (archive_keeps_incomplete good_disk two_tasks). intros t _ _. reflexivity.
Defined.

Lemma archive_stops_at_failure_witness :
  archiveCompletedTasks done_file_locked two_tasks =
  Raise (Py.mkExn Py.OSError "[Errno 13] Permission denied: 'done.txt'") two_tasks.
Proof.
  apply (archive_stops_at_failure done_file_locked two_tasks [task_a] [] task_b);
    [reflexivity | | reflexivity | reflexivity].
  intros x [<-|[]] Hx. vm_compute in Hx. discriminate.
Defined.

Lemma deleteTask_archived_row_witness :
  let st' := final (archiveCompletedTasks good_disk two_tasks) in
  Py.getitem (_filteredTasks st') 1 = Some task_b
  /\ deleteTask good_disk (ByIndex 1) st' =
     Raise (Py.mkExn Py.ValueError "list.remove(x): x not in list") st'.
Proof.
  apply (deleteTask_archived_row good_disk two_tasks 1 task_b);
    [intros t _ _; reflexivity | reflexivity | reflexivity].
Defined.

(** ** Changing what is shown *)

Section Visibility.
Variable env : Collaborators.

(** The four operations that change what is shown (the two visibility
    toggles, the search text, the filter picked in the tree) always return;
    they leave the store, the modified flag and the persisted settings as
    they were, replace (never extend) the attribute they set, and leave the
    filtered list equal to the evaluator re-run over the store. *)
Theorem view_changes_refilter (st : MainController) :
  (forall val, exists st',
      showFuture_setter env val st = Return tt st'
      /\ _showFuture st' = Py.VBool val
      /\ _file st' = _file st /\ _modified st' = _modified st
      /\ _settings st' = _settings st
      /\ _filteredTasks st' = refiltered env st')
  /\ (forall val, exists st',
        showCompleted_setter env val st = Return tt st'
        /\ _showCompleted st' = Py.VBool val
        /\ _file st' = _file st /\ _modified st' = _modified st
        /\ _settings st' = _settings st
        /\ _filteredTasks st' = refiltered env st')
  /\ (forall txt, exists st',
        searchText_setter env txt st = Return tt st'
        /\ _searchText st' = txt
        /\ _file st' = _file st /\ _modified st' = _modified st
        /\ _settings st' = _settings st
        /\ _filteredTasks st' = refiltered env st')
  /\ (forall idx, exists st',
        filterRequest env idx st = Return tt st'
        /\ _currentFilters st' = [item_filter env idx]
        /\ _file st' = _file st /\ _modified st' = _modified st
        /\ _settings st' = _settings st
        /\ _filteredTasks st' = refiltered env st').
Proof.
  repeat split; intros x; eexists;
    (split; [ unfold showFuture_setter, showCompleted_setter, searchText_setter,
                filterRequest; run_monad; rewrite applyFilters_run; reflexivity
            | repeat split; reflexivity ]).
Qed.

Lemma In_refiltered (st : MainController) (t : Task) :
  In t (refiltered env st) ->
  forall g, In g (composed_groups st) -> passes_group env g t = true.
Proof. unfold refiltered. rewrite In_filter_groups. tauto. Qed.

Lemma showCompleted_setter_filtered (val : bool) (st : MainController) :
  _filteredTasks (final (showCompleted_setter env val st)) =
  refiltered env (upd_showCompleted (Py.VBool val) st).
Proof.
  unfold showCompleted_setter; run_monad. rewrite applyFilters_run. reflexivity.
Qed.

Lemma showFuture_setter_filtered (val : bool) (st : MainController) :
  _filteredTasks (final (showFuture_setter env val st)) =
  refiltered env (upd_showFuture (Py.VBool val) st).
Proof.
  unfold showFuture_setter; run_monad. rewrite applyFilters_run. reflexivity.
Qed.

(** Once completed tasks are switched off, no completed task is listed,
    unless the show-complete filter is among the current filters; once future
    tasks are switched off, no task due after today is listed. *)
Theorem toggles_hide (st : MainController) (t : Task) :
  (Py.contains CompleteTasksFilter (_currentFilters st) = false ->
   In t (_filteredTasks (final (showCompleted_setter env false st))) ->
   is_complete t = false)
  /\ (In t (_filteredTasks (final (showFuture_setter env false st))) ->
      forall d, dueDate t = Some d -> d <= today env).
Proof.
  split.
  - intros Hc Hin. rewrite showCompleted_setter_filtered in Hin.
    pose proof (In_refiltered _ t Hin [IncompleteTasksFilter]) as Hp.
    rewrite passes_single in Hp. cbn [isMatch] in Hp.
    apply negb_true_iff. apply Hp.
    unfold composed_groups, incomplete_group. cbn [_showCompleted upd_emitted
      upd_showCompleted Py.truthy _currentFilters].
    rewrite Hc. apply in_or_app. right. apply in_or_app. right.
    apply in_or_app. right. now left.
  - intros Hin d Hd. rewrite showFuture_setter_filtered in Hin.
    pose proof (In_refiltered _ t Hin [FutureFilter]) as Hp.
    rewrite passes_single in Hp. cbn [isMatch] in Hp. unfold is_future in Hp.
    rewrite Hd in Hp. apply negb_true_iff, Z.ltb_ge in Hp; [exact Hp|].
    unfold composed_groups, future_group. cbn [_showFuture upd_emitted
      upd_showFuture Py.truthy].
    apply in_or_app. right. apply in_or_app. right.
    apply in_or_app. left. now left.
Qed.

End Visibility.

Lemma toggles_hide_witness :
  Py.contains CompleteTasksFilter (_currentFilters two_tasks) = false
  /\ In task_a (_filteredTasks (final (showCompleted_setter good_disk false two_tasks)))
  /\ is_complete task_a = false.
Proof.
  split; [reflexivity|].
  assert (Hin : In task_a
            (_filteredTasks (final (showCompleted_setter good_disk false two_tasks))))
    by (vm_compute; left; reflexivity).
  split; [exact Hin|].
  destruct (toggles_hide good_disk two_tasks task_a) as [H _].
  apply H; [reflexivity | exact Hin].
Defined.

(** ** More on the recent-files list *)

Section RecentFilesMore.

Lemma without_first_cases (x : string) (l : list string) :
  (if Py.contains x l then Py.remove x l else Some l) = Some (without_first x l).
Proof.
  unfold without_first. destruct (Py.contains x l) eqn:Hc.
  - apply contains_In in Hc. destruct (Py.remove x l) eqn:Hr; [reflexivity|].
    apply remove_None in Hr. contradiction.
  - destruct (Py.remove x l) eqn:Hr; [|reflexivity].
    apply remove_split in Hr as (l1 & l2 & -> & _ & _).
    assert (Hin : In x (l1 ++ x :: l2)) by (apply in_or_app; right; now left).
    apply contains_In in Hin. congruence.
Qed.


(** The whole of [updateRecentFile] on a list of names. *)
Lemma updateRecentFile_run (st : MainController) (l : list string) :
  _recentFiles st = Py.VList l ->
  let moved := filename (_file st) :: without_first (filename (_file st)) l in
  updateRecentFile st =
  match Py.int (persisted_value (_settings st) "max_recent_files" (Py.VInt 6)) with
  | inl e => Raise e (upd_recentFiles (Py.VList moved) st)
  | inr n =>
      Return tt
        (upd_emitted (emitted st ++ [recentFilesChanged])
           (upd_settings
              (<["recent_files" := Py.VList (Py.slice_to moved n)]> (_settings st))
              (upd_recentFiles (Py.VList (Py.slice_to moved n)) st)))
  end.
Proof.
  intros Hl. cbv zeta. unfold updateRecentFile; run_monad. rewrite Hl.
  pose proof (without_first_cases (filename (_file st)) l) as Hw.
  unfold persisted_value.
  destruct (Py.contains (filename (_file st)) l).
  - rewrite Hw. cbn [_settings upd_recentFiles]. rewrite insert_front.
    destruct (Py.int _); reflexivity.
  - injection Hw as <-. cbn [_settings upd_recentFiles]. rewrite insert_front.
    destruct (Py.int _); reflexivity.
Qed.

(** When "max_recent_files" holds a plain value that is no number,
    [updateRecentFile] raises (ValueError for a string that is no integer
    literal, TypeError for a value that is no number) after the in-memory
    list has been changed: the open file is at its front, the list is not cut
    and not persisted, and no signal is sent. *)
Theorem updateRecentFile_bad_maximum (st : MainController) (l : list string) (e : Py.Exn) :
  _recentFiles st = Py.VList l ->
  Py.plain (persisted_value (_settings st) "max_recent_files" (Py.VInt 6)) = true ->
  Py.int (persisted_value (_settings st) "max_recent_files" (Py.VInt 6)) = inl e ->
  exists st',
    updateRecentFile st = Raise e st'
    /\ _recentFiles st' =
       Py.VList (filename (_file st) :: without_first (filename (_file st)) l)
    /\ _settings st' = _settings st
    /\ emitted st' = emitted st
    /\ (Py.exn_class e = Py.ValueError \/ Py.exn_class e = Py.TypeError).
Proof.
  intros Hl _ He. pose proof (updateRecentFile_run st l Hl) as Hrun.
  cbv zeta in Hrun. rewrite He in Hrun. eexists. split; [exact Hrun|].
  repeat split.
  unfold Py.int in He.
  destruct (persisted_value (_settings st) "max_recent_files" (Py.VInt 6))
    as [| | |s|]; try discriminate; try (injection He as <-; right; reflexivity).
  destruct (Py.int_of_str s); [discriminate|]. injection He as <-. left. reflexivity.
Qed.



End RecentFilesMore.

Lemma updateRecentFile_bad_maximum_witness :
  exists st',
    updateRecentFile bad_max = Raise (Py.mkExn Py.ValueError
                                        "invalid literal for int() with base 10") st'
    /\ _recentFiles st' = Py.VList ["/home/u/todo.txt"]
    /\ _settings st' = _settings bad_max.
Proof.
  destruct (updateRecentFile_bad_maximum bad_max []
              (Py.mkExn Py.ValueError "invalid literal for int() with base 10")
              eq_refl eq_refl eq_refl) as (st' & Hrun & Hr & Hs & _).
  exists st'. split; [exact Hrun|]. split; [exact Hr | exact Hs].
Defined.



(** ** Opening, reloading, starting, leaving *)

Section OpenClose.
Variable env : Collaborators.

(** The state [open] reaches on a load that goes through, before the
    recent-files list is brought up to date. *)
Lemma open_loaded (fname : string) (lines : list string) (st : MainController) :
  let path := if Py.startswith fname "file:/" then Py.str_drop 6 fname else fname in
  lowest_priority_ok st = true ->
  file_load env path = inr lines ->
  exists s,
    open env fname st = updateRecentFile s
    /\ _file s = mkFile path (tasks_of_lines env (next_oid st) lines)
    /\ _modified s = false
    /\ _settings s = <["last_open_file" := Py.VStr path]> (_settings st)
    /\ _filteredTasks s = refiltered env s
    /\ _recentFiles s = _recentFiles st
    /\ _shownFilters s =
       Some (mkFile path (tasks_of_lines env (next_oid st) lines), _showCompleted st)
    /\ _currentFilters s = _currentFilters st
    /\ _searchText s = _searchText st.
Proof.
  cbv zeta. intros Hok Hload.
  set (path := if Py.startswith fname "file:/" then Py.str_drop 6 fname else fname) in *.
  set (s1 := upd_next_oid (next_oid st + length lines)%nat
               (upd_file (mkFile path (tasks_of_lines env (next_oid st) lines)) st)).
  assert (Hok1 : lowest_priority_ok s1 = true) by exact Hok.
  destruct (setModified_returns env false s1 Hok1) as (ti & cs & sg & Hs).
  eexists. split.
  - unfold open. fold path. unfold File_load, _loadFileToUI, showFilters. rewrite Hload.
    run_monad. unfold s1 in Hs. rewrite Hs. rewrite applyFilters_run. reflexivity.
  - repeat split.
Qed.


(** A load that raises, whatever the exception: [open] returns, the error
    signal carries the message with the file name and the exception text,
    and no attribute of the controller has changed. *)
Theorem open_failure_changes_nothing (fname : string) (st : MainController) (e : Py.Exn) :
  let path := if Py.startswith fname "file:/" then Py.str_drop 6 fname else fname in
  file_load env path = inl e ->
  exists st',
    open env fname st = Return tt st'
    /\ emitted st' = (emitted st ++ [error (open_error_msg path e)])%list
    /\ attributes st' = attributes st.
Proof.
  cbv zeta. intros He.
  pose proof (open_failure_reported env fname st e He) as Hrun. cbv zeta in Hrun.
  rewrite Hrun. eexists. split; [reflexivity|]. split; reflexivity.
Qed.

(** A name that starts with "file:/" loses these six characters and
    nothing more: opening "file:/" followed by [p] is opening [p], as long as
    [p] does not start with "file:/" itself. *)
Theorem open_strips_prefix (p : string) (st : MainController) :
  Py.startswith p "file:/" = false ->
  open env (String.append "file:/" p) st = open env p st.
Proof.
  intros Hp. unfold open. rewrite Hp.
  assert (Hs : Py.startswith (String.append "file:/" p) "file:/" = true)
    by (apply String.prefix_correct; destruct p; reflexivity).
  rewrite Hs.
  change (Py.str_drop 6 (String.append "file:/" p)) with p.
  reflexivity.
Qed.

(** [reload] reads the open file again: when the load goes through, the
    store is rebuilt from the lines on disk under the same name and the
    controller is unmodified, so edits that were not saved are gone. *)
Theorem reload_rereads (lines : list string) (st : MainController) :
  Py.startswith (filename (_file st)) "file:/" = false ->
  lowest_priority_ok st = true ->
  file_load env (filename (_file st)) = inr lines ->
  let st' := final (reload env st) in
  _file st' = mkFile (filename (_file st)) (tasks_of_lines env (next_oid st) lines)
  /\ _modified st' = false
  /\ _filteredTasks st' = refiltered env st'.
Proof.
  intros Hp Hok Hload. cbv zeta. unfold reload. unfold bind, get.
  pose proof (open_loaded (filename (_file st)) lines st) as Ho. cbv zeta in Ho.
  rewrite Hp in Ho. destruct (Ho Hok Hload) as (s & Hrun & Hfile & Hm & _ & Hft & _).
  rewrite Hrun.
  assert (Hkeep : forall s', let f := final (updateRecentFile s') in
            filter_view f = filter_view s' /\ _modified f = _modified s').
  { intros s'. cbv zeta. unfold updateRecentFile; run_monad.
    destruct (_recentFiles s') as [| | | |l0]; try (split; reflexivity).
    destruct (Py.contains (filename (_file s')) l0).
    - destruct (Py.remove (filename (_file s')) l0); [|split; reflexivity].
      cbn [_settings upd_recentFiles]. destruct (Py.int _); split; reflexivity.
    - cbn [_settings upd_recentFiles]. destruct (Py.int _); split; reflexivity. }
  destruct (Hkeep s) as [Hv Hm2]. destruct (view_filteredTasks _ _ Hv) as [Hft2 Hfile2].
  rewrite Hfile2, Hm2, Hft2, (refiltered_view env _ _ Hv). repeat split; assumption.
Qed.

End OpenClose.

Section StartExit.
Variable env : Collaborators.

Lemma start_run (st : MainController) :
  start env st =
  bind (if Py.truthy (start_filename st)
        then try_except (open_value env (start_filename st)) Py.is_OSError
               (fun ex => showError (OStr (Py.str_of_exn ex)))
        else ret tt)
       (fun _ => bind (_applyFilters env) (fun _ => _updateTitle)) st.
Proof.
  unfold start, start_filename, persisted_value; run_monad.
  destruct (_args_file st) as [f|]; [destruct (String.eqb f "")|]; reflexivity.
Qed.

Lemma refilter_then_title (s : MainController) :
  exists st',
    bind (_applyFilters env) (fun _ => _updateTitle) s = Return tt st'
    /\ _filteredTasks st' = refiltered env s
    /\ _file st' = _file s
    /\ _modified st' = _modified s
    /\ _settings st' = _settings s
    /\ emitted st' = (emitted s ++ [filteredTasksChanged; titleChanged (_title st')])%list
    /\ _title st' =
       String.append "QTodoTxt - "
         (String.append
            (if String.eqb (filename (_file s)) "" then "Untitled"
             else Py.basename (filename (_file s)))
            (if _modified s then " (*)" else "")).
Proof.
  unfold bind. rewrite applyFilters_run. unfold _updateTitle; run_monad.
  eexists. split; [reflexivity|].
  cbn [_filteredTasks _file _modified _settings emitted _title upd_emitted upd_title
       upd_filteredTasks].
  repeat split.
  - rewrite <- app_assoc. reflexivity.
  - destruct (String.eqb (filename (_file s)) ""), (_modified s); cbn [negb];
      rewrite ?append_empty_r; reflexivity.
Qed.

(** With no file named on the command line and none recorded as last
    opened, [start] opens nothing and returns: the store is untouched, the
    filtered list is the evaluator's over it, and the title is composed from
    the file name and the modified flag; the two signals sent are
    [filteredTasksChanged] and [titleChanged]. *)
Theorem start_nothing_to_open (st : MainController) :
  Py.truthy (start_filename st) = false ->
  exists st',
    start env st = Return tt st'
    /\ _filteredTasks st' = refiltered env st
    /\ _file st' = _file st
    /\ _settings st' = _settings st
    /\ emitted st' = (emitted st ++ [filteredTasksChanged; titleChanged (_title st')])%list
    /\ _title st' =
       String.append "QTodoTxt - "
         (String.append
            (if String.eqb (filename (_file st)) "" then "Untitled"
             else Py.basename (filename (_file st)))
            (if _modified st then " (*)" else "")).
Proof.
  intros Hf. rewrite start_run, Hf. unfold bind at 1, ret at 1.
  destruct (refilter_then_title st) as (st' & Hrun & Hft & Hfile & _ & Hse & Hem & Hti).
  exists st'. repeat split; assumption.
Qed.

(** When the file [start] sets out to open cannot be loaded, [start] still
    returns: the error signal carries the message, then the list is
    re-filtered and the title set; store and settings are as before. *)
Theorem start_unreadable_file (st : MainController) (f : string) (e : Py.Exn) :
  let path := if Py.startswith f "file:/" then Py.str_drop 6 f else f in
  start_filename st = Py.VStr f ->
  f <> "" ->
  file_load env path = inl e ->
  exists st',
    start env st = Return tt st'
    /\ emitted st' =
       (emitted st ++ [error (open_error_msg path e); filteredTasksChanged;
                       titleChanged (_title st')])%list
    /\ _file st' = _file st
    /\ _settings st' = _settings st
    /\ _filteredTasks st' = refiltered env st.
Proof.
  cbv zeta. intros Hsf Hne Hload. rewrite start_run, Hsf.
  cbn [Py.truthy]. apply String.eqb_neq in Hne. rewrite Hne. cbn [negb open_value].
  unfold bind at 1, try_except.
  pose proof (open_failure_reported env f st e Hload) as Hopen. cbv zeta in Hopen.
  rewrite Hopen.
  match goal with |- context [bind (_applyFilters env) ?k ?s] =>
    destruct (refilter_then_title s) as (st' & Hrun & Hft & Hfile & _ & Hse & Hem & _) end.
  exists st'. split; [exact Hrun|]. split.
  { rewrite Hem. cbn [emitted upd_emitted]. rewrite <- app_assoc. reflexivity. }
  repeat split; assumption.
Qed.




End StartExit.


Lemma open_failure_changes_nothing_witness :
  exists st',
    open unreadable_disk "/home/u/gone.txt" two_tasks = Return tt st'
    /\ attributes st' = attributes two_tasks.
Proof.
  destruct (open_failure_changes_nothing unreadable_disk "/home/u/gone.txt" two_tasks
              (Py.mkExn Py.OSError "[Errno 2] No such file or directory") eq_refl)
    as (st' & Hrun & _ & Ha).
  exists st'. split; [exact Hrun | exact Ha].
Defined.

Lemma open_strips_prefix_witness :
  open good_disk "file://home/u/todo.txt" two_tasks =
  open good_disk "/home/u/todo.txt" two_tasks.
Proof.
  apply (open_strips_prefix good_disk "/home/u/todo.txt" two_tasks). reflexivity.
Defined.

Lemma reload_rereads_witness :
  let st' := final (reload two_line_disk two_tasks) in
  map text (tasks (_file st')) = ["Call Bob"; "x 2021-02-02 Pay rent"]
  /\ filename (_file st') = "/home/u/todo.txt"
  /\ _modified st' = false.
Proof.
  destruct (reload_rereads two_line_disk ["Call Bob"; "x 2021-02-02 Pay rent"] two_tasks
              eq_refl eq_refl eq_refl) as (Hfile & Hm & _).
  cbv zeta. rewrite Hfile. split; [reflexivity|]. split; [reflexivity | exact Hm].
Defined.

Lemma start_nothing_to_open_witness :
  exists st',
    start good_disk just_built = Return tt st'
    /\ _title st' = "QTodoTxt - Untitled"
    /\ _filteredTasks st' = [].
Proof.
  destruct (start_nothing_to_open good_disk just_built eq_refl)
    as (st' & Hrun & Hft & _ & _ & _ & Hti).
  exists st'. split; [exact Hrun|]. split; [exact Hti | exact Hft].
Defined.

Lemma start_unreadable_file_witness :
  exists st',
    start unreadable_disk told_to_open = Return tt st'
    /\ _file st' = _file told_to_open.
Proof.
  destruct (start_unreadable_file unreadable_disk told_to_open "/home/u/todo.txt"
              (Py.mkExn Py.OSError "[Errno 2] No such file or directory") eq_refl)
    as (st' & Hrun & _ & Hfile & _); [discriminate | reflexivity |].
  exists st'. split; [exact Hrun | exact Hfile].
Defined.


